(** * RedbookAgent: the session wrapper, the element locators, the login
      handler and the result sanitizer, embedded from the Python sources

    - [scripts/clean_array.py]      -> [Module clean_array]
    - [xhs_mcp/xhs/comment.py]      -> [Module comment]
    - [xhs_mcp/mcp_server.py]       -> [Module mcp_server]

    The properties of each module are in the module of the same name with
    the suffix [_facts].

    Python values that travel through the sanitizer are JSON documents; Python
    exceptions are values of [exn], a class name and a message; a call that
    may raise returns a [result]. The browser, the driver and the file
    system are outside the program: every call on them is logged, and its
    outcome is read off a record that stands for the world of one
    invocation. *)

From Stdlib Require Import List String Ascii ZArith Bool Arith Lia.
Import ListNotations.
Open Scope string_scope.
Open Scope list_scope.

(** ** Python exceptions and results *)

Record exn := Exn { exn_class : string; exn_msg : string }.

Definition TypeError (msg : string) : exn := Exn "TypeError" msg.
Definition ValueError (msg : string) : exn := Exn "ValueError" msg.
Definition RuntimeError (msg : string) : exn := Exn "RuntimeError" msg.
Definition TimeoutError (msg : string) : exn := Exn "TimeoutError" msg.

Inductive result (A : Type) : Type :=
| Ok (a : A)
| Raise (e : exn).
Arguments Ok {A} a.
Arguments Raise {A} e.

Definition is_ok {A} (r : result A) : bool :=
  match r with Ok _ => true | Raise _ => false end.

(** ** JSON documents, as Python holds them

    A Python [dict] keeps its keys in insertion order, so an object is an
    association list; a [dict] built by the JSON decoder has each key once.
    A document is a tree: no object is shared between two places of it, as
    in what the feed actions decode from the page. Numbers are integers;
    the sanitizer never looks inside one. *)

#[warnings="-register-all"]
Inductive json : Type :=
| JNull
| JBool (b : bool)
| JNum (z : Z)
| JStr (s : string)
| JArr (l : list json)
| JObj (kv : list (string * json)).

Module dict.

(** [k in d] *)
Fixpoint mem (k : string) (d : list (string * json)) : bool :=
  match d with
  | [] => false
  | (k', _) :: d' => if String.eqb k k' then true else mem k d'
  end.

(** [d.get(k)] ([None] is Python's [None] for a missing key) *)
Fixpoint get (k : string) (d : list (string * json)) : option json :=
  match d with
  | [] => None
  | (k', v) :: d' => if String.eqb k k' then Some v else get k d'
  end.

(** [del d[k]] on a dict that has [k] *)
Fixpoint del (k : string) (d : list (string * json)) : list (string * json) :=
  match d with
  | [] => []
  | (k', v) :: d' => if String.eqb k k' then del k d' else (k', v) :: del k d'
  end.

(** the dict [d] after the object stored under [k] was mutated into [v] *)
Fixpoint set (k : string) (v : json) (d : list (string * json)) : list (string * json) :=
  match d with
  | [] => []
  | (k', v') :: d' => if String.eqb k k' then (k', v) :: d' else (k', v') :: set k v d'
  end.

End dict.

(** [needle in s] for two Python strings: substring search. *)
Fixpoint str_contains (needle s : string) : bool :=
  if String.prefix needle s then true
  else match s with
       | EmptyString => false
       | String _ s' => str_contains needle s'
       end.

Definition is_JStr (k : string) (v : json) : bool :=
  match v with JStr s => String.eqb s k | _ => false end.

(** [k in v] where [k] is a string literal and [v] any JSON value. *)
Definition py_contains (k : string) (v : json) : result bool :=
  match v with
  | JObj d => Ok (dict.mem k d)
  | JStr s => Ok (str_contains k s)
  | JArr l => Ok (existsb (is_JStr k) l)
  | JNull => Raise (TypeError "argument of type 'NoneType' is not iterable")
  | JBool _ => Raise (TypeError "argument of type 'bool' is not iterable")
  | JNum _ => Raise (TypeError "argument of type 'int' is not iterable")
  end.

(** [v[k]] where [k] is a string literal. *)
Definition py_getitem (k : string) (v : json) : result json :=
  match v with
  | JObj d => match dict.get k d with
              | Some x => Ok x
              | None => Raise (Exn "KeyError" k)
              end
  | JStr _ => Raise (TypeError "string indices must be integers, not 'str'")
  | JArr _ => Raise (TypeError "list indices must be integers or slices, not str")
  | JNull => Raise (TypeError "'NoneType' object is not subscriptable")
  | JBool _ => Raise (TypeError "'bool' object is not subscriptable")
  | JNum _ => Raise (TypeError "'int' object is not subscriptable")
  end.

(** [del v[k]] where [k] is a string literal: the mutated value. *)
Definition py_delitem (k : string) (v : json) : result json :=
  match v with
  | JObj d => if dict.mem k d then Ok (JObj (dict.del k d)) else Raise (Exn "KeyError" k)
  | JArr _ => Raise (TypeError "list indices must be integers or slices, not str")
  | JStr _ => Raise (TypeError "'str' object doesn't support item deletion")
  | JNull => Raise (TypeError "'NoneType' object doesn't support item deletion")
  | JBool _ => Raise (TypeError "'bool' object doesn't support item deletion")
  | JNum _ => Raise (TypeError "'int' object doesn't support item deletion")
  end.

(** A byte that continues a character of a UTF-8 string: [10xxxxxx]. *)
Definition is_continuation (c : ascii) : bool :=
  Nat.leb 128 (nat_of_ascii c) && Nat.ltb (nat_of_ascii c) 192.

(** The first [n] characters of a string held as UTF-8 bytes: the bytes
    up to, and without, the lead byte of character [n + 1]. *)
Fixpoint str_take (n : nat) (s : string) : string :=
  match s with
  | EmptyString => EmptyString
  | String c s' =>
      if is_continuation c then String c (str_take n s')
      else match n with
           | O => EmptyString
           | S n' => String c (str_take n' s')
           end
  end.

(** [v[:10]]; slicing a [dict] raises a [TypeError] up to Python 3.11 and
    a [KeyError] from 3.12 on, where a slice can be a key. *)
Definition py_slice10 (v : json) : result json :=
  match v with
  | JStr s => Ok (JStr (str_take 10 s))
  | JArr l => Ok (JArr (firstn 10 l))
  | JObj _ => Raise (TypeError "unhashable type: 'slice'")
  | JNull => Raise (TypeError "'NoneType' object is not subscriptable")
  | JBool _ => Raise (TypeError "'bool' object is not subscriptable")
  | JNum _ => Raise (TypeError "'int' object is not subscriptable")
  end.

(** ** scripts/clean_array.py *)

Module clean_array.

(** What [print] wrote: one line per deleted token, carrying the sliced
    object id, and the closing summary line with [cleaned_count]. *)
Inductive line : Type :=
| LDeleted (id_prefix : json)
| LSummary (cleaned_count : nat).

(** The effect of one loop iteration on [item]: the item as it is after
    the iteration (it is mutated in place), the line printed, and either
    the exception that left the loop or whether a token was deleted. *)
Record step := Step { item_after : json; step_out : list line; step_res : result bool }.

(** The body of the loop. The deletion comes before the [print], whose
    f-string slices the object id: when the slice raises, the token is
    already gone from the item. *)
Definition clean_item (item : json) : step :=
  match item with
  | JObj d =>
      if match dict.get "modelType" d with Some v => is_JStr "note" v | None => false end
      then
        match dict.get "noteCard" d with
        | None => Step item [] (Ok false)
        | Some noteCard =>
            match py_contains "user" noteCard with
            | Raise e => Step item [] (Raise e)
            | Ok false => Step item [] (Ok false)
            | Ok true =>
                match py_getitem "user" noteCard with
                | Raise e => Step item [] (Raise e)
                | Ok user =>
                    match py_contains "xsecToken" user with
                    | Raise e => Step item [] (Raise e)
                    | Ok false => Step item [] (Ok false)
                    | Ok true =>
                        match py_delitem "xsecToken" user with
                        | Raise e => Step item [] (Raise e)
                        | Ok user' =>
                            let noteCard' :=
                              match noteCard with
                              | JObj nc => JObj (dict.set "user" user' nc)
                              | other => other
                              end in
                            let item' := JObj (dict.set "noteCard" noteCard' d) in
                            match py_slice10 (match dict.get "id" d with
                                              | Some v => v
                                              | None => JStr "N/A"
                                              end) with
                            | Raise e => Step item' [] (Raise e)
                            | Ok p => Step item' [LDeleted p] (Ok true)
                            end
                        end
                    end
                end
            end
        end
      else Step item [] (Ok false)
  | _ => Step item [] (Ok false)
  end.

(** The state of a call: the caller's array as the call left it, what was
    printed, and the call's outcome. *)
Record run (A : Type) := Run { array_after : list json; printed : list line; outcome : result A }.
Arguments Run {A} _ _ _.
Arguments array_after {A} _.
Arguments printed {A} _.
Arguments outcome {A} _.

(** [for item in data_array: ...], with [cleaned_count] as accumulator. *)
Fixpoint clean_loop (data_array : list json) (cleaned_count : nat) : run nat :=
  match data_array with
  | [] => Run [] [] (Ok cleaned_count)
  | item :: rest =>
      let s := clean_item item in
      match step_res s with
      | Raise e => Run (item_after s :: rest) (step_out s) (Raise e)
      | Ok deleted =>
          let r := clean_loop rest (if deleted then S cleaned_count else cleaned_count) in
          Run (item_after s :: array_after r) (step_out s ++ printed r) (outcome r)
      end
  end.

(** [clean_xsec_tokens(data_array)] called on a list: the [isinstance]
    test passes, the loop runs, the summary is printed and the same list
    object is returned. *)
Definition clean_xsec_tokens (data_array : list json) : run json :=
  let r := clean_loop data_array 0 in
  match outcome r with
  | Raise e => Run (array_after r) (printed r) (Raise e)
  | Ok n => Run (array_after r) (printed r ++ [LSummary n]) (Ok (JArr (array_after r)))
  end.

(** *** What the sanitizer is meant to do, in the words of its contract

    An object is of the note kind when its [modelType] is the string
    [note]; the duplicated token sits at [noteCard.user.xsecToken]. *)

Definition is_note (item : json) : bool :=
  match item with
  | JObj d => match dict.get "modelType" d with
              | Some (JStr s) => String.eqb s "note"
              | _ => false
              end
  | _ => false
  end.

(** The value found by following the keys [p] through nested objects. *)
Fixpoint get_path (p : list string) (v : json) : option json :=
  match p with
  | [] => Some v
  | k :: p' =>
      match v with
      | JObj d => match dict.get k d with
                  | Some x => get_path p' x
                  | None => None
                  end
      | _ => None
      end
  end.

(** [v] without the entry that the keys [p] lead to, if they lead to one. *)
Fixpoint del_path (p : list string) (v : json) : json :=
  match p with
  | [] => v
  | k :: p' =>
      match v with
      | JObj d =>
          match p' with
          | [] => JObj (dict.del k d)
          | _ :: _ => match dict.get k d with
                      | Some x => JObj (dict.set k (del_path p' x) d)
                      | None => v
                      end
          end
      | _ => v
      end
  end.

Definition nested_token : list string := ["noteCard"; "user"; "xsecToken"].
Definition top_token : list string := ["xsecToken"].

(** The paths [p] and [q] part ways at some key: neither leads into the
    other. *)
Fixpoint diverges (p q : list string) : bool :=
  match p, q with
  | k :: p', k' :: q' => if String.eqb k k' then diverges p' q' else true
  | _, _ => false
  end.

Definition has_nested_token (item : json) : bool :=
  is_note item && match get_path nested_token item with Some _ => true | None => false end.

Definition strip (item : json) : json :=
  if is_note item then del_path nested_token item else item.

(** How many objects of the array lose a token. *)
Definition removed (data_array : list json) : nat :=
  List.length (filter has_nested_token data_array).

(** The array of the module's own usage example. *)
Definition example_array : list json :=
  [ JObj [ ("id", JStr "note001"); ("modelType", JStr "note");
           ("xsecToken", JStr "top_level_token_1");
           ("noteCard", JObj [ ("user", JObj [ ("nickName", JStr "用户1");
                                               ("xsecToken", JStr "user_token_1") ]) ]) ];
    JObj [ ("id", JStr "note002"); ("modelType", JStr "note");
           ("xsecToken", JStr "top_level_token_2");
           ("noteCard", JObj [ ("user", JObj [ ("nickName", JStr "用户2");
                                               ("xsecToken", JStr "user_token_2") ]) ]) ];
    JObj [ ("id", JStr "rec001"); ("modelType", JStr "rec_query") ] ].

Definition example_cleaned : list json :=
  [ JObj [ ("id", JStr "note001"); ("modelType", JStr "note");
           ("xsecToken", JStr "top_level_token_1");
           ("noteCard", JObj [ ("user", JObj [ ("nickName", JStr "用户1") ]) ]) ];
    JObj [ ("id", JStr "note002"); ("modelType", JStr "note");
           ("xsecToken", JStr "top_level_token_2");
           ("noteCard", JObj [ ("user", JObj [ ("nickName", JStr "用户2") ]) ]) ];
    JObj [ ("id", JStr "rec001"); ("modelType", JStr "rec_query") ] ].

(** An item the loop goes through without a [TypeError]: anything that is
    not a note, or a note whose [noteCard] and [user], where present, are
    objects and whose [id], where present, is a string. *)
Definition well_shaped (item : json) : bool :=
  match item with
  | JObj d =>
      negb (is_note item) ||
      (match dict.get "noteCard" d with
       | None => true
       | Some (JObj nc) =>
           match dict.get "user" nc with
           | None | Some (JObj _) => true
           | _ => false
           end
       | _ => false
       end &&
       match dict.get "id" d with
       | None | Some (JStr _) => true
       | _ => false
       end)
  | _ => true
  end.

(** Applying the sanitizer to what a first application returned. *)
Definition clean_twice (data_array : list json) : run json :=
  let r1 := clean_xsec_tokens data_array in
  match outcome r1 with
  | Ok (JArr a) => clean_xsec_tokens a
  | _ => r1
  end.

End clean_array.

(** ** xhs_mcp/xhs/comment.py *)

Module comment.

Inductive wait_state : Type := visible | attached.

Inductive waited : Type :=
| Reached
| TimedOut (msg : string).

(** What the locators see of a Playwright page: how many elements a
    selector matches now, whether the first match of a selector reaches a
    state within a timeout (in milliseconds; if not, [wait_for] raises a
    [TimeoutError] with the driver's message), and the document text. *)
Record Page := {
  count : string -> nat;
  wait_for : string -> wait_state -> Z -> waited;
  content : string
}.

(** [page.locator(selector).first] *)
Inductive Locator : Type := first (selector : string).

(** The driver calls a locator makes, in order. *)
Inductive call : Type :=
| Count (selector : string)
| WaitFor (selector : string) (state : wait_state) (timeout : Z).

(** The [for selector in selectors] loop of [_locate_editor], with
    [last_error] as it stands on entry; what follows the loop is the
    base case. *)
Fixpoint editor_loop (page : Page) (selectors : list string) (last_error : option exn)
  : list call * result Locator :=
  match selectors with
  | [] =>
      match last_error with
      | Some e => ([], Raise e)
      | None => ([], Raise (TimeoutError "Comment editor not found"))
      end
  | selector :: rest =>
      if Nat.eqb (count page selector) 0 then
        let (calls, r) := editor_loop page rest last_error in
        (Count selector :: calls, r)
      else
        match wait_for page selector visible 30000 with
        | Reached => ([Count selector; WaitFor selector visible 30000], Ok (first selector))
        | TimedOut msg =>
            let (calls, r) := editor_loop page rest (Some (TimeoutError msg)) in
            (Count selector :: WaitFor selector visible 30000 :: calls, r)
        end
  end.

Definition editor_selectors : list string :=
  [ "div.input-box div.content-edit p.content-input";
    "div.input-box div.content-edit span";
    "textarea";
    "div[contenteditable='true']" ].

Definition _locate_editor (page : Page) : list call * result Locator :=
  editor_loop page editor_selectors None.

(** The [for selector in candidates] loop of [_locate_submit]; the
    fallback that follows the loop is the base case. *)
Fixpoint submit_loop (page : Page) (candidates : list string) : list call * result Locator :=
  match candidates with
  | [] =>
      if Nat.eqb (count page "button") 0 then
        ([Count "button"], Raise (TimeoutError "Comment submit button not found"))
      else
        match wait_for page "button" attached 5000 with
        | Reached => ([Count "button"; WaitFor "button" attached 5000], Ok (first "button"))
        | TimedOut msg =>
            ([Count "button"; WaitFor "button" attached 5000], Raise (TimeoutError msg))
        end
  | selector :: rest =>
      if Nat.eqb (count page selector) 0 then
        let (calls, r) := submit_loop page rest in
        (Count selector :: calls, r)
      else
        match wait_for page selector attached 10000 with
        | Reached => ([Count selector; WaitFor selector attached 10000], Ok (first selector))
        | TimedOut _ =>
            let (calls, r) := submit_loop page rest in
            (Count selector :: WaitFor selector attached 10000 :: calls, r)
        end
  end.

(** The button labels are the site's words for "send" and "comment". *)
Definition submit_candidates : list string :=
  [ "div.bottom button.submit";
    "button:has-text('发送')";
    "button:has-text('评论')" ].

Definition _locate_submit (page : Page) : list call * result Locator :=
  submit_loop page submit_candidates.

(** *** The vocabulary of the locator contract *)

(** A candidate reaches its required state within its timeout: it matches
    an element now and the wait on its first match returns. *)
Definition reaches (page : Page) (state : wait_state) (timeout : Z) (selector : string) : bool :=
  negb (Nat.eqb (count page selector) 0) &&
  match wait_for page selector state timeout with Reached => true | TimedOut _ => false end.

(** A candidate times out: it matches an element now and the wait on its
    first match raises. *)
Definition times_out (page : Page) (state : wait_state) (timeout : Z) (selector : string)
  : option exn :=
  if Nat.eqb (count page selector) 0 then None
  else match wait_for page selector state timeout with
       | Reached => None
       | TimedOut msg => Some (TimeoutError msg)
       end.

(** The timeout errors of a candidate list, in list order. *)
Fixpoint timeouts (page : Page) (state : wait_state) (timeout : Z) (selectors : list string)
  : list exn :=
  match selectors with
  | [] => []
  | selector :: rest =>
      match times_out page state timeout selector with
      | Some e => e :: timeouts page state timeout rest
      | None => timeouts page state timeout rest
      end
  end.

(** Every candidate is exhausted: none reaches its state. *)
Definition exhausted (page : Page) (state : wait_state) (timeout : Z) (selectors : list string)
  : Prop :=
  find (reaches page state timeout) selectors = None.

(** The selectors a run asked the page to wait on. *)
Fixpoint waited_on (calls : list call) : list string :=
  match calls with
  | [] => []
  | WaitFor selector _ _ :: rest => selector :: waited_on rest
  | Count _ :: rest => waited_on rest
  end.

(** The selectors a run looked up on the page. *)
Fixpoint looked_up (calls : list call) : list string :=
  match calls with
  | [] => []
  | Count selector :: rest => selector :: looked_up rest
  | WaitFor _ _ _ :: rest => looked_up rest
  end.

(** The two element-location operations of the module. *)
Inductive locate_op : Type := locate_editor | locate_submit.

Definition op_candidates (op : locate_op) : list string :=
  match op with locate_editor => editor_selectors | locate_submit => submit_candidates end.

Definition op_state (op : locate_op) : wait_state :=
  match op with locate_editor => visible | locate_submit => attached end.

Definition op_timeout (op : locate_op) : Z :=
  match op with locate_editor => 30000%Z | locate_submit => 10000%Z end.

Definition op_run (op : locate_op) (page : Page) : list call * result Locator :=
  match op with locate_editor => _locate_editor page | locate_submit => _locate_submit page end.

(** A run applies a final fallback: after its candidates it looks up one
    more selector, which is none of them. *)
Definition applies_fallback (op : locate_op) (page : Page) : Prop :=
  exists fallback,
    ~ In fallback (op_candidates op) /\
    looked_up (fst (op_run op page)) = op_candidates op ++ [fallback].

(** The error the editor locator is left with when nothing reached its
    state: the last timeout, or the one it had on entry, or its own. *)
Definition editor_error (page : Page) (selectors : list string) (last_error : option exn) : exn :=
  last (timeouts page visible 30000 selectors)
       (match last_error with
        | Some e => e
        | None => TimeoutError "Comment editor not found"
        end).

(** The outcome of what follows the loop of the submit locator. *)
Definition fallback_outcome (page : Page) : result Locator :=
  if Nat.eqb (count page "button") 0
  then Raise (TimeoutError "Comment submit button not found")
  else match wait_for page "button" attached 5000 with
       | Reached => Ok (first "button")
       | TimedOut msg => Raise (TimeoutError msg)
       end.

(** An operation's loop over an arbitrary candidate list. *)
Definition op_loop (op : locate_op) (page : Page) (selectors : list string)
  : list call * result Locator :=
  match op with
  | locate_editor => editor_loop page selectors None
  | locate_submit => submit_loop page selectors
  end.

(** An [ElementNotFound] error that carries the candidate list and the
    page's document text. *)
Definition element_not_found (page : Page) (selectors : list string) (e : exn) : Prop :=
  exn_class e = "ElementNotFound" /\
  str_contains (content page) (exn_msg e) = true /\
  Forall (fun s => str_contains s (exn_msg e) = true) selectors.

(** The page [page] with another document text. *)
Definition with_content (page : Page) (text : string) : Page :=
  {| count := count page; wait_for := wait_for page; content := text |}.

(** A page on which no selector matches anything. *)
Definition blank_page : Page :=
  {| count := fun _ => 0; wait_for := fun _ _ _ => TimedOut "Timeout exceeded."; content := "<html></html>" |}.

(** A page on which every selector matches one element; the first match
    of the most specific editor selector never becomes visible, every
    other first match is in its state at once. *)
Definition flaky_page : Page :=
  {| count := fun _ => 1;
     wait_for := fun selector _ _ =>
       if String.eqb selector "div.input-box div.content-edit p.content-input"
       then TimedOut "Timeout 30000ms exceeded."
       else Reached;
     content := "<html><body><textarea></textarea></body></html>" |}.

End comment.

(** ** xhs_mcp/mcp_server.py *)

Module mcp_server.

Definition Path : Type := string.

(** [dir / name] *)
Definition joinpath (dir : Path) (name : string) : Path := (dir ++ "/" ++ name)%string.
Infix "//" := joinpath (at level 40, left associativity).

Definition newline : string := String (ascii_of_nat 10) EmptyString.

(** The serialized cookies and storage of a browsing context. *)
Definition SessionBlob : Type := json.

(** What a handler sees of the live page it is given: the login
    indicator as it reads [t] milliseconds after the handler started, what
    [page.context.storage_state()] does (it returns the state, or raises),
    and what writing a session file from this session does (it returns, or
    raises). *)
Record LivePage := {
  login_indicator : Z -> bool;
  storage_state : result SessionBlob;
  save_outcome : option exn
}.

Record ActionContext := { page : LivePage }.

(** What a handler does that the wrapper can observe: the console
    messages its page emits, the session saves it makes, and any other
    step of a business action. *)
Inductive hevent : Type :=
| ConsoleMsg (type text : string)
| Save (cookies_file : Path) (state : SessionBlob)
| Act (label : string).

(** The calls the wrapper makes on the driver and on the file system. *)
Inductive op : Type :=
| PwStart | PwStop
| Launch (chrome_bin : option string) | BrowserClose
| NewContext (cookies_file : Path) | ContextClose
| TracingStart | TracingStop (path : Path)
| NewPage | OnConsole
| InHandler (h : hevent)
| Mkdir (dir : Path)
| PageContent
| WriteText (path : Path) (text : string)
| Screenshot (path : Path).

(** A call that returned, or a call that raised. *)
Inductive event : Type :=
| Did (o : op)
| Failed (o : op) (e : exn).

(** *** Computations that log their calls and may raise *)

Definition M (A : Type) : Type := (list event * result A)%type.

Definition ret {A} (a : A) : M A := ([], Ok a).

Definition raise {A} (e : exn) : M A := ([], Raise e).

Definition bind {A B} (m : M A) (f : A -> M B) : M B :=
  match m with
  | (t, Ok a) => let (t', r) := f a in (t ++ t', r)
  | (t, Raise e) => (t, Raise e)
  end.

Notation "x <- m ;; k" := (bind m (fun x => k))
  (at level 61, m at next level, right associativity).
Notation "m ;; k" := (bind m (fun _ => k))
  (at level 61, right associativity).

(** A call [o] whose outcome the world decides. *)
Definition call {A} (o : op) (out : result A) : M A :=
  match out with
  | Ok a => ([Did o], Ok a)
  | Raise e => ([Failed o e], Raise e)
  end.

Definition do_ (o : op) (out : option exn) : M unit :=
  call o (match out with None => Ok tt | Some e => Raise e end).

(** [try: body finally: final]: the finalizer always runs, and an
    exception it raises is the statement's outcome. *)
Definition try_finally {A} (body : M A) (final : M unit) : M A :=
  let (t, r) := body in
  let (t', r') := final in
  (t ++ t', match r' with Raise e => Raise e | Ok _ => r end).

(** [try: body except Exception as exc: handle(exc)]; every exception of
    [exn] is an [Exception]. *)
Definition try_except {A} (body : M A) (handle : exn -> M A) : M A :=
  match body with
  | (t, Raise exc) => let (t', r) := handle exc in (t ++ t', r)
  | ok => ok
  end.

(** A context manager: what entering it and what leaving it do. *)
Record manager (A : Type) := Manager { enter : M A; exit : M unit }.
Arguments Manager {A} _ _.
Arguments enter {A} _.
Arguments exit {A} _.

(** [with manager as x: body x], for a manager whose exit does not swallow
    exceptions: the exit runs on every way out of the body, and an
    exception it raises is the statement's outcome. *)
Definition with_ {A B} (m : manager A) (body : A -> M B) : M B :=
  x <- enter m ;; try_finally (body x) (exit m).

(** The outcome of every call the wrapper makes outside the handler.
    [get_cookies_path] and [get_chrome_executable] belong to
    [xhs_mcp.configs], which is not among the sources: the first resolves
    the session file from the explicit path and the profile name, the
    second the browser binary, and may raise. [resolve_path] is
    [Path(value).expanduser().resolve()] and [expanduser] is
    [str(Path(path).expanduser())], both read off the machine. *)
Record World := {
  get_cookies_path : option string -> option string -> Path;
  get_chrome_executable : option string -> result (option string);
  resolve_path : string -> Path;
  expanduser : string -> string;
  pw_start : option exn;
  pw_stop : option exn;
  browser_launch : option exn;
  browser_close : option exn;
  context_new : option exn;
  context_close : option exn;
  tracing_start : option exn;
  new_page : result LivePage;
  page_on : option exn;
  mkdir : option exn;
  page_content : result string;
  write_dom : option exn;
  screenshot : option exn;
  write_screenshot_error : option exn;
  write_console : option exn;
  tracing_stop : option exn
}.

(** Modelled from the spec: the manager [pw] of [xhs_mcp.infra.browser] is
    not among the sources. It starts the driver on entry and stops it on
    exit, whatever the body did. *)
Definition pw (w : World) : manager unit :=
  Manager (do_ PwStart (pw_start w)) (do_ PwStop (pw_stop w)).

(** Modelled from the spec: the manager [launch] of
    [xhs_mcp.infra.browser] is not among the sources. It acquires the
    browser process on entry and releases it on exit, whatever the body
    did. *)
Definition launch (w : World) (chrome_bin : option string) : manager unit :=
  Manager (do_ (Launch chrome_bin) (browser_launch w)) (do_ BrowserClose (browser_close w)).

(** Modelled from the spec: the manager [new_context] of
    [xhs_mcp.infra.browser] is not among the sources. It acquires an
    isolated context seeded from the session file on entry and releases it
    on exit, whatever the body did. *)
Definition new_context (w : World) (cookies_file : Path) : manager unit :=
  Manager (do_ (NewContext cookies_file) (context_new w)) (do_ ContextClose (context_close w)).

(** *** Defaults and argument resolution *)

Record ServerDefaults := {
  d_profile : option string;
  d_cookies_path : option string;
  d_chrome_bin : option string;
  d_debug_dir : option Path;
  d_trace : bool
}.

Definition _resolve_bool (value : option bool) (default : bool) : bool :=
  match value with None => default | Some b => b end.

Definition _effective_str (provided fallback : option string) : option string :=
  match provided with Some _ => provided | None => fallback end.

Definition _resolve_invocation_args (w : World) (DEFAULTS : ServerDefaults)
    (profile cookies_path chrome_bin debug_dir : option string) (trace : option bool)
  : option string * option string * option string * option Path * bool :=
  let profile_eff := _effective_str profile (d_profile DEFAULTS) in
  let cookies_eff := _effective_str cookies_path (d_cookies_path DEFAULTS) in
  let chrome_eff := _effective_str chrome_bin (d_chrome_bin DEFAULTS) in
  let debug_eff := match debug_dir with
                   | Some d => Some (resolve_path w d)
                   | None => d_debug_dir DEFAULTS
                   end in
  let trace_eff := _resolve_bool trace (d_trace DEFAULTS) in
  (profile_eff, cookies_eff, chrome_eff, debug_eff, trace_eff).

(** *** The session wrapper *)

Definition handler_type (T : Type) : Type := ActionContext -> Path -> list hevent * result T.

(** The handler's run, as calls of the wrapper's log. *)
Definition run_handler {T} (h : list hevent * result T) : M T :=
  (map (fun e => Did (InHandler e)) (fst h), snd h).

(** The lines the console collector appended while the handler ran. *)
Fixpoint console_lines (hs : list hevent) : list string :=
  match hs with
  | [] => []
  | ConsoleMsg type text :: rest => ("[" ++ type ++ "] " ++ text)%string :: console_lines rest
  | _ :: rest => console_lines rest
  end.

(** The first [if] of the [finally] block. *)
Definition capture_diagnostics (w : World) (debug_dir_path : Path) (console_logs : list string)
  : M unit :=
  do_ (Mkdir debug_dir_path) (mkdir w) ;;
  dom <- call PageContent (page_content w) ;;
  do_ (WriteText (debug_dir_path // "dom.html") dom) (write_dom w) ;;
  let screenshot_path := debug_dir_path // "page.png" in
  try_except
    (do_ (Screenshot screenshot_path) (screenshot w))
    (fun exc => do_ (WriteText (debug_dir_path // "screenshot-error.log") (exn_msg exc))
                    (write_screenshot_error w)) ;;
  do_ (WriteText (debug_dir_path // "console.log") (String.concat newline console_logs))
      (write_console w).

(** The whole [finally] block. *)
Definition teardown (w : World) (debug_dir : option Path) (trace : bool)
    (console_logs : list string) : M unit :=
  match debug_dir with
  | Some debug_dir_path => capture_diagnostics w debug_dir_path console_logs
  | None => ret tt
  end ;;
  match debug_dir with
  | Some debug_dir_path =>
      if trace then do_ (TracingStop (debug_dir_path // "trace.zip")) (tracing_stop w)
      else ret tt
  | None => ret tt
  end.

(** What runs inside the three [with] statements. *)
Definition session_body {T} (w : World) (cookies_file : Path) (debug_dir : option Path)
    (trace : bool) (handler : handler_type T) : M T :=
  match debug_dir with
  | Some _ => if trace then do_ TracingStart (tracing_start w) else ret tt
  | None => ret tt
  end ;;
  page <- call NewPage (new_page w) ;;
  match debug_dir with
  | Some _ => do_ OnConsole (page_on w)
  | None => ret tt
  end ;;
  let h := handler {| page := page |} cookies_file in
  let console_logs := match debug_dir with
                      | Some _ => console_lines (fst h)
                      | None => []
                      end in
  try_finally (run_handler h) (teardown w debug_dir trace console_logs).

Definition _run_with_page_sync {T} (w : World)
    (profile cookies_path chrome_bin : option string) (debug_dir : option Path)
    (trace : bool) (handler : handler_type T) : M T :=
  let cookies_file := get_cookies_path w cookies_path profile in
  match get_chrome_executable w chrome_bin with
  | Raise e => raise e
  | Ok chrome_exe =>
      with_ (pw w) (fun playwright =>
        with_ (launch w chrome_exe) (fun browser =>
          with_ (new_context w cookies_file) (fun context =>
            session_body w cookies_file debug_dir trace handler)))
  end.

(** [_run_with_page] hands the synchronous wrapper to a worker thread and
    awaits it: same calls, same outcome. *)
Definition _run_with_page {T} := @_run_with_page_sync T.

(** *** publish_image *)

Record PublishImageContent := {
  title : string;
  content : string;
  image_paths : list string;
  tags : list string
}.

(** [tag.lstrip("#")] *)
Fixpoint lstrip_hash (tag : string) : string :=
  match tag with
  | String c rest => if Ascii.eqb c "#" then lstrip_hash rest else tag
  | EmptyString => EmptyString
  end.

Definition nonempty (tag : string) : bool :=
  match tag with EmptyString => false | _ => true end.

Definition _normalize_tags (tags : option (list string)) : list string :=
  match tags with
  | None | Some [] => []
  | Some tags => map lstrip_hash (filter nonempty tags)
  end.

(** [publish] stands for [PublishImageAction(ctx).publish], a business
    action outside these sources. *)
Definition publish_image (w : World) (DEFAULTS : ServerDefaults)
    (publish : ActionContext -> PublishImageContent -> list hevent * result unit)
    (title content : string) (image_paths : list string) (tags : option (list string))
    (profile cookies_path chrome_bin debug_dir : option string) (trace : option bool)
  : M json :=
  match image_paths with
  | [] => raise (ValueError "image_paths must contain at least one file")
  | _ :: _ =>
      let '(profile_eff, cookies_eff, chrome_eff, debug_eff, trace_eff) :=
        _resolve_invocation_args w DEFAULTS profile cookies_path chrome_bin debug_dir trace in
      let normalized_tags := _normalize_tags tags in
      let normalized_images := map (expanduser w) image_paths in
      let handler : handler_type json := fun ctx _cookies =>
        let payload := {| title := title; content := content;
                          image_paths := normalized_images; tags := normalized_tags |} in
        match publish ctx payload with
        | (hs, Ok _) => (hs, Ok (JObj [("status", JStr "submitted")]))
        | (hs, Raise e) => (hs, Raise e)
        end in
      _run_with_page w profile_eff cookies_eff chrome_eff debug_eff trace_eff handler
  end.

(** *** wait_for_login_complete *)

(** Modelled from the spec: [xhs_mcp.xhs.login.wait_for_login] is not
    among the sources. The login attempt polls: at a fixed interval it
    re-checks the page's login indicator; it succeeds the first time the
    indicator reports authenticated, and it times out once the deadline
    has elapsed with no success. Times are in milliseconds since the
    polling started. *)
Inductive LoginAttempt : Type :=
| AwaitingScan
| Polling (now : Z)
| Succeeded
| TimedOut.

(** Modelled from the spec: one transition of the login attempt. *)
Definition login_step (p : LivePage) (deadline interval : Z) (s : LoginAttempt) : LoginAttempt :=
  match s with
  | AwaitingScan => Polling 0
  | Polling now =>
      if (deadline <=? now)%Z then TimedOut
      else if login_indicator p now then Succeeded
      else Polling (now + interval)
  | Succeeded => Succeeded
  | TimedOut => TimedOut
  end.

(** Modelled from the spec: [ticks] transitions in a row. *)
Fixpoint login_run (p : LivePage) (deadline interval : Z) (ticks : nat) (s : LoginAttempt)
  : LoginAttempt :=
  match ticks with
  | O => s
  | S ticks' => login_run p deadline interval ticks' (login_step p deadline interval s)
  end.

(** Modelled from the spec: the polling, run for as many steps as fit
    before the deadline (one to start, one per tick, one to see the
    deadline); [timeout_seconds] is in seconds as in the caller, the
    interval in milliseconds. *)
Definition wait_for_login (p : LivePage) (timeout_seconds poll_interval : Z) : bool :=
  let deadline := (1000 * timeout_seconds)%Z in
  match login_run p deadline poll_interval (Z.to_nat (deadline / poll_interval) + 3)
                  AwaitingScan with
  | Succeeded => true
  | _ => false
  end.

(** Modelled from the spec: [xhs_mcp.infra.cookies.save_storage_state] is
    not among the sources; it replaces the session file at [cookies_file]
    by [state] in one piece. This is the step the call leaves in the
    handler's log, whether it then returns or raises. *)
Definition save_storage_state (cookies_file : Path) (state : SessionBlob) : list hevent :=
  [Save cookies_file state].

(** The [handler] closure of [wait_for_login_complete]: the timeout error
    is its own, an error of reading the storage state or of the save
    leaves it as it is. *)
Definition login_handler (timeout poll_interval : Z) : handler_type json :=
  fun ctx cookies_file =>
    let success := wait_for_login (page ctx) timeout poll_interval in
    if negb success then ([], Raise (RuntimeError "Login timed out."))
    else
      match storage_state (page ctx) with
      | Raise e => ([], Raise e)
      | Ok state =>
          (save_storage_state cookies_file state,
           match save_outcome (page ctx) with
           | Some e => Raise e
           | None =>
               Ok (JObj [("status", JStr "logged_in"); ("cookies_path", JStr cookies_file)])
           end)
      end.

(** [timeout] is in seconds, [poll_interval] in milliseconds (the source
    has it in seconds, as a float: 0.5 is 500 here). *)
Definition wait_for_login_complete (w : World) (DEFAULTS : ServerDefaults)
    (timeout poll_interval : Z)
    (profile cookies_path chrome_bin debug_dir : option string) (trace : option bool)
  : M json :=
  let '(profile_eff, cookies_eff, chrome_eff, debug_eff, trace_eff) :=
    _resolve_invocation_args w DEFAULTS profile cookies_path chrome_bin debug_dir trace in
  _run_with_page w profile_eff cookies_eff chrome_eff debug_eff trace_eff
                 (login_handler timeout poll_interval).

(** *** The vocabulary of the wrapper's contract *)



Fixpoint handler_events (t : list event) : list hevent :=
  match t with
  | [] => []
  | Did (InHandler h) :: rest => h :: handler_events rest
  | _ :: rest => handler_events rest
  end.

(** The session resources, and the calls that acquire and release them. *)
Inductive resource : Type := Driver | Browser | Context.

Definition acquires (o : op) : option resource :=
  match o with
  | PwStart => Some Driver
  | Launch _ => Some Browser
  | NewContext _ => Some Context
  | _ => None
  end.

Definition releases (o : op) : option resource :=
  match o with
  | PwStop => Some Driver
  | BrowserClose => Some Browser
  | ContextClose => Some Context
  | _ => None
  end.

Definition resource_eqb (a b : resource) : bool :=
  match a, b with
  | Driver, Driver | Browser, Browser | Context, Context => true
  | _, _ => false
  end.

(** A call that neither acquires nor releases a session resource. *)
Definition neutral (ev : event) : bool :=
  match ev with
  | Did o | Failed o _ =>
      match acquires o, releases o with None, None => true | _, _ => false end
  end.

(** The resources live after a log, given those live before it: a call
    that acquired and returned pushes its resource; a release, whether it
    returned or raised, must be of the resource acquired last and pops it.
    [None] when a release comes out of turn. *)
Fixpoint live_after (live : list resource) (t : list event) : option (list resource) :=
  match t with
  | [] => Some live
  | ev :: rest =>
      let o := match ev with Did o | Failed o _ => o end in
      match releases o with
      | Some r =>
          match live with
          | r' :: live' => if resource_eqb r r' then live_after live' rest else None
          | [] => None
          end
      | None =>
          match ev, acquires o with
          | Did _, Some r => live_after (r :: live) rest
          | _, _ => live_after live rest
          end
      end
  end.

(** Every event of a computation's log passes the test [P]. *)
Definition all (P : event -> bool) {A} (m : M A) : Prop := forallb P (fst m) = true.

(** An event that is not a step of the handler. *)
Definition outside_handler (ev : event) : bool :=
  match ev with
  | Did (InHandler _) | Failed (InHandler _) _ => false
  | _ => true
  end.

(** The event a release leaves in the log. *)
Definition released (o : op) (out : option exn) : event :=
  match out with None => Did o | Some e => Failed o e end.

(** Every call on the way to the handler returns. *)
Definition setup_ok (w : World) (chrome_bin : option string) : bool :=
  is_ok (get_chrome_executable w chrome_bin) && is_ok (new_page w) &&
  match pw_start w, browser_launch w, context_new w, tracing_start w, page_on w with
  | None, None, None, None, None => true
  | _, _, _, _, _ => false
  end.

(** Every teardown call other than the screenshot returns. *)
Definition teardown_ok (w : World) : bool :=
  is_ok (page_content w) &&
  match mkdir w, write_dom w, write_screenshot_error w, write_console w, tracing_stop w,
        context_close w, browser_close w, pw_stop w with
  | None, None, None, None, None, None, None, None => true
  | _, _, _, _, _, _, _, _ => false
  end.


(** *** Sample pages and worlds *)

(** A page on which nobody ever scans the code. *)
Definition idle_page : LivePage :=
  {| login_indicator := fun _ => false; storage_state := Ok (JObj []); save_outcome := None |}.

(** A page on which the code is scanned one second in: the indicator
    reads authenticated from the third poll on (ticks at 0, 500, 1000). *)
Definition scanned_page : LivePage :=
  {| login_indicator := fun t => (1000 <=? t)%Z;
     storage_state := Ok (JObj [("cookies", JArr [JObj [("name", JStr "web_session")]])]);
     save_outcome := None |}.


(** A world in which every call returns. *)
Definition quiet_world (p : LivePage) : World :=
  {| get_cookies_path := fun cookies_path profile =>
       match cookies_path, profile with
       | Some path, _ => path
       | None, Some name => ("profiles/" ++ name ++ ".json")%string
       | None, None => "profiles/default.json"
       end;
     get_chrome_executable := fun chrome_bin => Ok chrome_bin;
     resolve_path := fun d => d;
     expanduser := fun f => f;
     pw_start := None; pw_stop := None;
     browser_launch := None; browser_close := None;
     context_new := None; context_close := None;
     tracing_start := None;
     new_page := Ok p;
     page_on := None;
     mkdir := None;
     page_content := Ok "<html></html>";
     write_dom := None;
     screenshot := None;
     write_screenshot_error := None;
     write_console := None;
     tracing_stop := None |}.

(** The same world, except that the screenshot cannot be taken. *)
Definition no_screenshot_world (p : LivePage) : World :=
  let w := quiet_world p in
  {| get_cookies_path := get_cookies_path w;
     get_chrome_executable := get_chrome_executable w;
     resolve_path := resolve_path w;
     expanduser := expanduser w;
     pw_start := None; pw_stop := None;
     browser_launch := None; browser_close := None;
     context_new := None; context_close := None;
     tracing_start := None;
     new_page := Ok p;
     page_on := None;
     mkdir := None;
     page_content := Ok "<html></html>";
     write_dom := None;
     screenshot := Some (Exn "Error" "Page.screenshot: Protocol error");
     write_screenshot_error := None;
     write_console := None;
     tracing_stop := None |}.

(** The same world, except that the page has gone by the time its
    document text is read for [dom.html]. *)
Definition closed_page_world (p : LivePage) : World :=
  let w := quiet_world p in
  {| get_cookies_path := get_cookies_path w;
     get_chrome_executable := get_chrome_executable w;
     resolve_path := resolve_path w;
     expanduser := expanduser w;
     pw_start := None; pw_stop := None;
     browser_launch := None; browser_close := None;
     context_new := None; context_close := None;
     tracing_start := None;
     new_page := Ok p;
     page_on := None;
     mkdir := None;
     page_content := Raise (Exn "Error" "Page.content: Target page, context or browser has been closed");
     write_dom := None;
     screenshot := None;
     write_screenshot_error := None;
     write_console := None;
     tracing_stop := None |}.

(** A handler that fails in the middle of its action. *)
Definition failing_handler : handler_type json :=
  fun _ _ => ([Act "goto"; ConsoleMsg "error" "net::ERR_FAILED"],
              Raise (RuntimeError "Login timed out.")).

Definition no_defaults : ServerDefaults :=
  {| d_profile := None; d_cookies_path := None; d_chrome_bin := None;
     d_debug_dir := None; d_trace := false |}.

End mcp_server.

(** ** scripts/clean_array.py: the string sanitizer *)

Module clean_json.

(** What [clean_json_string] prints: that it deleted the token, or that
    the string is not JSON. *)
Inductive sline : Type :=
| SDeleted
| SUnparsable.

(** The [if] of [clean_json_string] on the decoded object: the object as
    the deletion left it, and whether the token was deleted. Unlike the
    loop of [clean_xsec_tokens] it prints no object id. *)
Definition clean_obj (obj : json) : result (json * bool) :=
  match obj with
  | JObj d =>
      if match dict.get "modelType" d with Some v => is_JStr "note" v | None => false end
      then
        match dict.get "noteCard" d with
        | None => Ok (obj, false)
        | Some noteCard =>
            match py_contains "user" noteCard with
            | Raise e => Raise e
            | Ok false => Ok (obj, false)
            | Ok true =>
                match py_getitem "user" noteCard with
                | Raise e => Raise e
                | Ok user =>
                    match py_contains "xsecToken" user with
                    | Raise e => Raise e
                    | Ok false => Ok (obj, false)
                    | Ok true =>
                        match py_delitem "xsecToken" user with
                        | Raise e => Raise e
                        | Ok user' =>
                            let noteCard' :=
                              match noteCard with
                              | JObj nc => JObj (dict.set "user" user' nc)
                              | other => other
                              end in
                            Ok (JObj (dict.set "noteCard" noteCard' d), true)
                        end
                    end
                end
            end
        end
      else Ok (obj, false)
  | _ => Ok (obj, false)
  end.

Section codec.

(** [json.loads] and [json.dumps(_, ensure_ascii=False)] of the Python
    library: [loads] is [None] where the decoder raises [JSONDecodeError]. *)
Variable loads : string -> option json.
Variable dumps : json -> string.

(** [clean_json_string(json_string)]: only the decoder's error is caught;
    a [TypeError] of the [if] leaves the function. *)
Definition clean_json_string (json_string : string) : list sline * result string :=
  match loads json_string with
  | None => ([SUnparsable], Ok json_string)
  | Some obj =>
      match clean_obj obj with
      | Raise e => ([], Raise e)
      | Ok (obj', deleted) => (if deleted then [SDeleted] else [], Ok (dumps obj'))
      end
  end.

End codec.

(** A decoder that knows one document, and an encoder that names what it
    is given. *)
Definition toy_loads (s : string) : option json :=
  if String.eqb s "note001" then nth_error clean_array.example_array 0 else None.

Definition toy_dumps (v : json) : string :=
  match clean_array.get_path clean_array.nested_token v with
  | Some _ => "with nested token"
  | None => "without nested token"
  end.

(** A note whose [noteCard] is [null]. *)
Definition broken_note : json :=
  JObj [("id", JStr "note003"); ("modelType", JStr "note"); ("noteCard", JNull)].

End clean_json.

(** ** xhs_mcp/xhs/comment.py: the action *)

Module comment_action.
Import comment.

(** The page of one [post_comment]: what the editor locator sees once the
    note is loaded, what the submit locator sees once the comment is typed,
    and the outcome of every other call on the page. *)
Record Session := {
  editor_view : Page;
  submit_view : Page;
  goto_out : string -> option exn;
  load_state_out : option exn;
  timeout_out : Z -> option exn;
  click_out : Locator -> option exn;
  fill_out : Locator -> string -> option exn;
  type_out : Locator -> string -> option exn
}.

(** The calls of [post_comment] on the page, in order; a call that raised
    is the last one. *)
Inductive action : Type :=
| Goto (url wait_until : string)
| WaitForLoadState (state : string)
| WaitForTimeout (ms : Z)
| Lookup (c : call)
| Click (l : Locator)
| Fill (l : Locator) (text : string)
| TypeText (l : Locator) (text : string).

(** A call, then the rest. *)
Definition then_ {A} (a : action) (out : option exn) (rest : list action * result A)
  : list action * result A :=
  match out with
  | Some e => ([a], Raise e)
  | None => (a :: fst rest, snd rest)
  end.

(** A locator, then the rest on what it found. *)
Definition located {A} (r : list call * result Locator) (rest : Locator -> list action * result A)
  : list action * result A :=
  match snd r with
  | Raise e => (map Lookup (fst r), Raise e)
  | Ok l => (map Lookup (fst r) ++ fst (rest l), snd (rest l))
  end.

Definition note_url (feed_id xsec_token : string) : string :=
  ("https://www.xiaohongshu.com/explore/" ++ feed_id ++ "?xsec_token=" ++ xsec_token
   ++ "&xsec_source=pc_feed")%string.

Definition post_comment (s : Session) (feed_id xsec_token content : string)
  : list action * result unit :=
  let url := note_url feed_id xsec_token in
  then_ (Goto url "domcontentloaded") (goto_out s url)
  (then_ (WaitForLoadState "networkidle") (load_state_out s)
  (then_ (WaitForTimeout 2000) (timeout_out s 2000)
  (located (_locate_editor (editor_view s)) (fun editor =>
   then_ (Click editor) (click_out s editor)
  (then_ (Fill editor "") (fill_out s editor "")
  (then_ (TypeText editor content) (type_out s editor content)
  (located (_locate_submit (submit_view s)) (fun submit =>
   then_ (Click submit) (click_out s submit)
  (then_ (WaitForTimeout 1000) (timeout_out s 1000)
         ([], Ok tt)))))))))).

(** A call that puts something into the page: a click or keystrokes. *)
Definition touches (a : action) : bool :=
  match a with
  | Click _ | Fill _ _ | TypeText _ _ => true
  | _ => false
  end.

Definition is_click (a : action) : bool :=
  match a with Click _ => true | _ => false end.

(** The milliseconds a locator run may spend waiting: the timeouts of its
    waits, added up. *)
Fixpoint wait_budget (calls : list call) : Z :=
  match calls with
  | [] => 0
  | WaitFor _ _ timeout :: rest => timeout + wait_budget rest
  | Count _ :: rest => wait_budget rest
  end.

(** A session in which every call returns, on given views. *)
Definition calm_session (editor_view submit_view : Page) : Session :=
  {| editor_view := editor_view; submit_view := submit_view;
     goto_out := fun _ => None; load_state_out := None; timeout_out := fun _ => None;
     click_out := fun _ => None; fill_out := fun _ _ => None; type_out := fun _ _ => None |}.

(** A page with a comment box and nothing to send it with. *)
Definition no_button_page : Page :=
  {| count := fun selector => if String.eqb selector "textarea" then 1 else 0;
     wait_for := fun _ _ _ => Reached;
     content := "<html><body><textarea></textarea></body></html>" |}.

End comment_action.

(** ** xhs_mcp/mcp_server.py and xhs_mcp/cli/mcp_cli.py: the defaults *)

Module server_config.
Import mcp_server.

(** A [debug_dir] argument: a string or a [Path]. *)
Inductive dir_arg : Type :=
| DirStr (s : string)
| DirPath (p : Path).

Definition _normalize_debug_dir (w : World) (value : option dir_arg) : option Path :=
  match value with
  | None => None
  | Some (DirPath p) => Some p
  | Some (DirStr s) => Some (resolve_path w s)
  end.

(** [configure_defaults]: the defaults after the call, given those before
    it. *)
Definition configure_defaults (w : World) (DEFAULTS : ServerDefaults)
    (profile cookies_path chrome_bin : option string) (debug_dir : option dir_arg)
    (trace : option bool) : ServerDefaults :=
  {| d_profile := match profile with Some _ => profile | None => d_profile DEFAULTS end;
     d_cookies_path :=
       match cookies_path with Some _ => cookies_path | None => d_cookies_path DEFAULTS end;
     d_chrome_bin :=
       match chrome_bin with Some _ => chrome_bin | None => d_chrome_bin DEFAULTS end;
     d_debug_dir :=
       match debug_dir with
       | Some _ => _normalize_debug_dir w debug_dir
       | None => d_debug_dir DEFAULTS
       end;
     d_trace := match trace with Some b => b | None => d_trace DEFAULTS end |}.

(** [DEFAULTS = ServerDefaults()] *)
Definition initial_defaults : ServerDefaults :=
  {| d_profile := None; d_cookies_path := None; d_chrome_bin := None;
     d_debug_dir := None; d_trace := false |}.

(** What [serve] of the command line does to the defaults before it runs
    the server: the options' values, the directory as a string, the trace
    flag always. *)
Definition serve_defaults (w : World) (DEFAULTS : ServerDefaults)
    (profile cookies_path chrome_bin : option string) (debug_dir : option Path) (trace : bool)
  : ServerDefaults :=
  configure_defaults w DEFAULTS profile cookies_path chrome_bin
    (match debug_dir with Some d => Some (DirStr d) | None => None end)
    (Some (trace || false)).

(** The first of two optional values that is given. *)
Definition or_else {A} (a b : option A) : option A :=
  match a with Some _ => a | None => b end.

End server_config.

(** ** xhs_mcp/mcp_server.py: the feed tools, and the wrapper's log *)

Module tools.
Import mcp_server.

(** A [Feed] of [xhs_mcp.xhs.feeds], of which the tools read [raw]. *)
Record Feed := { raw : json }.

(** The [handler] closure of [feeds_list] and of [search_feeds], on what
    the feed action returned. What the sanitizer prints goes to the
    process's standard output and is not part of the handler's steps. *)
Definition sanitize_feeds (r : list hevent * result (list Feed)) : list hevent * result json :=
  match r with
  | (hs, Raise e) => (hs, Raise e)
  | (hs, Ok feeds) =>
      (hs, clean_array.outcome (clean_array.clean_xsec_tokens (map raw feeds)))
  end.

(** [get_feeds] stands for [FeedsListAction(ctx).get_feeds], a business
    action outside these sources. *)
Definition feeds_list (w : World) (DEFAULTS : ServerDefaults)
    (get_feeds : ActionContext -> list hevent * result (list Feed))
    (profile cookies_path chrome_bin debug_dir : option string) (trace : option bool)
  : M json :=
  let '(profile_eff, cookies_eff, chrome_eff, debug_eff, trace_eff) :=
    _resolve_invocation_args w DEFAULTS profile cookies_path chrome_bin debug_dir trace in
  let handler : handler_type json := fun ctx _cookies => sanitize_feeds (get_feeds ctx) in
  _run_with_page w profile_eff cookies_eff chrome_eff debug_eff trace_eff handler.

(** [search] stands for [SearchAction(ctx).search], a business action
    outside these sources. *)
Definition search_feeds (w : World) (DEFAULTS : ServerDefaults)
    (search : ActionContext -> string -> list hevent * result (list Feed))
    (keyword : string)
    (profile cookies_path chrome_bin debug_dir : option string) (trace : option bool)
  : M json :=
  let '(profile_eff, cookies_eff, chrome_eff, debug_eff, trace_eff) :=
    _resolve_invocation_args w DEFAULTS profile cookies_path chrome_bin debug_dir trace in
  let handler : handler_type json := fun ctx _cookies => sanitize_feeds (search ctx keyword) in
  _run_with_page w profile_eff cookies_eff chrome_eff debug_eff trace_eff handler.

(** *** The vocabulary of the wrapper's log *)

Definition is_none {A} (o : option A) : bool :=
  match o with None => true | Some _ => false end.

(** Every call that comes before the handler returns: the handler is
    reached. Starting the tracing and attaching the console collector are
    only called, and so only count, under the flags that ask for them. *)
Definition handler_reached (w : World) (chrome_bin : option string) (debug_dir : option Path)
    (trace : bool) : bool :=
  is_ok (get_chrome_executable w chrome_bin) &&
  is_none (pw_start w) && is_none (browser_launch w) && is_none (context_new w) &&
  match debug_dir with
  | Some _ => (if trace then is_none (tracing_start w) else true) && is_none (page_on w)
  | None => true
  end &&
  is_ok (new_page w).

(** A call of the diagnostics capture. *)
Definition is_diagnostic (ev : event) : bool :=
  match ev with
  | Did o | Failed o _ =>
      match o with
      | Mkdir _ | PageContent | WriteText _ _ | Screenshot _ | TracingStop _ => true
      | _ => false
      end
  end.

(** A call the wrapper only makes when a diagnostics directory is set. *)
Definition is_debug_call (ev : event) : bool :=
  is_diagnostic ev ||
  match ev with
  | Did o | Failed o _ =>
      match o with TracingStart | OnConsole => true | _ => false end
  end.

Definition is_tracing_stop (ev : event) : bool :=
  match ev with
  | Did (TracingStop _) | Failed (TracingStop _) _ => true
  | _ => false
  end.

(** An event that is neither a step of the handler nor a diagnostics
    call. *)
Definition is_plain (ev : event) : bool :=
  outside_handler ev && negb (is_diagnostic ev).

(** The calls between the acquisition of the context and the handler,
    when all of them return. *)
Definition prelude (debug_dir : option Path) (trace : bool) : list event :=
  match debug_dir with
  | Some _ => (if trace then [Did TracingStart] else []) ++ [Did NewPage; Did OnConsole]
  | None => [Did NewPage]
  end.

(** A tag made of [#] signs only. *)
Fixpoint only_hashes (tag : string) : bool :=
  match tag with
  | EmptyString => true
  | String c rest => Ascii.eqb c "#" && only_hashes rest
  end.

(** A tag that begins with a [#] sign. *)
Definition starts_with_hash (tag : string) : bool :=
  match tag with
  | String c _ => Ascii.eqb c "#"
  | EmptyString => false
  end.

(** A world in which the browser cannot be launched. *)
Definition no_browser_world (p : LivePage) : World :=
  let w := quiet_world p in
  {| get_cookies_path := get_cookies_path w;
     get_chrome_executable := get_chrome_executable w;
     resolve_path := resolve_path w;
     expanduser := expanduser w;
     pw_start := None; pw_stop := None;
     browser_launch := Some (Exn "Error" "BrowserType.launch: Executable doesn't exist");
     browser_close := None;
     context_new := None; context_close := None;
     tracing_start := None;
     new_page := Ok p;
     page_on := None;
     mkdir := None;
     page_content := Ok "<html></html>";
     write_dom := None;
     screenshot := None;
     write_screenshot_error := None;
     write_console := None;
     tracing_stop := None |}.

(** A world in which the session file cannot be loaded into a context. *)
Definition no_context_world (p : LivePage) : World :=
  let w := quiet_world p in
  {| get_cookies_path := get_cookies_path w;
     get_chrome_executable := get_chrome_executable w;
     resolve_path := resolve_path w;
     expanduser := expanduser w;
     pw_start := None; pw_stop := None;
     browser_launch := None;
     browser_close := None;
     context_new := Some (Exn "Error" "Browser.new_context: storage state is not valid JSON");
     context_close := None;
     tracing_start := None;
     new_page := Ok p;
     page_on := None;
     mkdir := None;
     page_content := Ok "<html></html>";
     write_dom := None;
     screenshot := None;
     write_screenshot_error := None;
     write_console := None;
     tracing_stop := None |}.

(** A feed action that returns the objects of the sanitizer's example. *)
Definition example_feeds (_ : ActionContext) : list hevent * result (list Feed) :=
  ([Act "get_feeds"], Ok (map (fun r => {| raw := r |}) clean_array.example_array)).

End tools.

(** * Properties *)

Module dict_facts.
Import dict.

Lemma mem_get k d : mem k d = match get k d with Some _ => true | None => false end.
Proof. induction d as [|[k' v] d IH]; simpl; [reflexivity|]. destruct (String.eqb k k'); auto. Qed.

Lemma get_set_eq k v d x : get k d = Some x -> get k (set k v d) = Some v.
Proof.
  induction d as [|[k' v'] d IH]; simpl; [discriminate|].
  destruct (String.eqb k k') eqn:E; simpl; rewrite E; auto.
Qed.

Lemma get_set_ne k k' v d : k <> k' -> get k (set k' v d) = get k d.
Proof.
  intros Hne. induction d as [|[k2 v2] d IH]; simpl; [reflexivity|].
  destruct (String.eqb k' k2) eqn:E; simpl.
  - apply String.eqb_eq in E. subst k2.
    apply String.eqb_neq in Hne. rewrite Hne. reflexivity.
  - rewrite IH. reflexivity.
Qed.

Lemma mem_set k k' v d : mem k (set k' v d) = mem k d.
Proof.
  induction d as [|[k2 v2] d IH]; simpl; [reflexivity|].
  destruct (String.eqb k' k2) eqn:E; simpl; [reflexivity|]. rewrite IH. reflexivity.
Qed.

Lemma mem_del k d : mem k (del k d) = false.
Proof.
  induction d as [|[k' v] d IH]; simpl; [reflexivity|].
  destruct (String.eqb k k') eqn:E; simpl; [assumption|]. rewrite E. assumption.
Qed.

Lemma get_del_ne k k' d : k <> k' -> get k (del k' d) = get k d.
Proof.
  intros Hne. induction d as [|[k2 v2] d IH]; simpl; [reflexivity|].
  destruct (String.eqb k' k2) eqn:E; simpl.
  - apply String.eqb_eq in E. subst k2.
    destruct (String.eqb k k') eqn:E'; [apply String.eqb_eq in E'; contradiction | exact IH].
  - rewrite IH. reflexivity.
Qed.

Lemma set_get_id k v d : get k d = Some v -> set k v d = d.
Proof.
  induction d as [|[k' v'] d IH]; simpl; [reflexivity|].
  destruct (String.eqb k k') eqn:E.
  - intros [= ->]. reflexivity.
  - intros H. rewrite (IH H). reflexivity.
Qed.

Lemma del_not_mem k d : mem k d = false -> del k d = d.
Proof.
  induction d as [|[k' v'] d IH]; simpl; [reflexivity|].
  destruct (String.eqb k k') eqn:E; [discriminate|].
  intros H. rewrite (IH H). reflexivity.
Qed.

End dict_facts.

Module clean_array_facts.
Import clean_array dict_facts.

(** One iteration that does not raise does to its item what [strip] says,
    reports a deletion exactly for a note that carries the nested token,
    and prints exactly then. *)
Lemma clean_item_ok item b :
  step_res (clean_item item) = Ok b ->
  item_after (clean_item item) = strip item /\
  b = has_nested_token item /\
  List.length (step_out (clean_item item)) = (if b then 1 else 0).
Proof.
  unfold strip, has_nested_token, is_note, clean_item.
  destruct item as [| | | |l|d]; simpl; try (intros [= <-]; auto).
  destruct (dict.get "modelType" d) as [[| | |s| |]|] eqn:Hm; simpl;
    try (intros [= <-]; auto).
  destruct (String.eqb s "note") eqn:Hs; simpl; [|intros [= <-]; auto].
  destruct (dict.get "noteCard" d) as [nc|] eqn:Hnc; simpl; [|intros [= <-]; auto].
  destruct nc as [| | |s1|l1|nc]; simpl; try discriminate.
  - destruct (str_contains "user" s1); simpl; [discriminate|].
    intros [= <-]. rewrite (set_get_id _ _ _ Hnc). auto.
  - destruct (existsb (is_JStr "user") l1); simpl; [discriminate|].
    intros [= <-]. rewrite (set_get_id _ _ _ Hnc). auto.
  - rewrite mem_get.
    destruct (dict.get "user" nc) as [u|] eqn:Hu; simpl.
    2:{ intros [= <-]. rewrite (set_get_id _ _ _ Hnc). auto. }
    destruct u as [| | |s2|l2|u]; simpl; try discriminate.
    + destruct (str_contains "xsecToken" s2); simpl; [discriminate|].
      intros [= <-]. rewrite (set_get_id _ _ _ Hu), (set_get_id _ _ _ Hnc). auto.
    + destruct (existsb (is_JStr "xsecToken") l2); simpl; [discriminate|].
      intros [= <-]. rewrite (set_get_id _ _ _ Hu), (set_get_id _ _ _ Hnc). auto.
    + destruct (dict.mem "xsecToken" u) eqn:Ht; simpl.
      * rewrite mem_get in Ht.
        destruct (dict.get "xsecToken" u); [|discriminate].
        destruct (py_slice10 _); simpl; [|discriminate].
        intros [= <-]. auto.
      * intros [= <-]. rewrite (del_not_mem _ _ Ht).
        rewrite (set_get_id _ _ _ Hu), (set_get_id _ _ _ Hnc).
        rewrite mem_get in Ht. destruct (dict.get "xsecToken" u); [discriminate|]. auto.
Qed.

(** An item that went through one iteration without raising goes through
    the next one untouched, with nothing deleted and nothing printed. *)
Lemma clean_item_again item b :
  step_res (clean_item item) = Ok b ->
  clean_item (item_after (clean_item item)) = Step (item_after (clean_item item)) [] (Ok false).
Proof.
  unfold clean_item at 1 3 4.
  destruct item as [| | | |l|d]; simpl; try (intros [= <-]; reflexivity).
  destruct (dict.get "modelType" d) as [v|] eqn:Hm; simpl.
  2:{ intros _. unfold clean_item. rewrite Hm. reflexivity. }
  destruct (is_JStr "note" v) eqn:Hs; simpl.
  2:{ intros _. unfold clean_item. rewrite Hm, Hs. reflexivity. }
  destruct (dict.get "noteCard" d) as [nc|] eqn:Hnc; simpl.
  2:{ intros _. unfold clean_item. rewrite Hm, Hs, Hnc. reflexivity. }
  destruct (py_contains "user" nc) as [[|]|e] eqn:Hcu; simpl; try discriminate.
  2:{ intros _. unfold clean_item. rewrite Hm, Hs, Hnc, Hcu. reflexivity. }
  destruct (py_getitem "user" nc) as [u|e] eqn:Hgu; simpl; try discriminate.
  destruct (py_contains "xsecToken" u) as [[|]|e] eqn:Hct; simpl; try discriminate.
  2:{ intros _. unfold clean_item. rewrite Hm, Hs, Hnc, Hcu, Hgu, Hct. reflexivity. }
  destruct (py_delitem "xsecToken" u) as [u'|e] eqn:Hd; simpl; try discriminate.
  destruct (py_slice10 _) as [p|e]; simpl; try discriminate.
  intros _.
  destruct nc as [| | |s1|l1|nc]; simpl in Hgu; try discriminate.
  destruct (dict.get "user" nc) as [u0|] eqn:Hu; [|discriminate].
  injection Hgu as ->.
  destruct u as [| | |s2|l2|u]; simpl in Hd; try discriminate.
  destruct (dict.mem "xsecToken" u); [|discriminate].
  injection Hd as <-.
  unfold clean_item.
  rewrite get_set_ne by discriminate. rewrite Hm, Hs.
  rewrite (get_set_eq _ _ _ _ Hnc). simpl.
  rewrite mem_set. simpl in Hcu. injection Hcu as ->.
  rewrite (get_set_eq _ _ _ _ Hu). simpl.
  rewrite mem_del. reflexivity.
Qed.

Lemma get_path_del_path p v : p <> [] -> get_path p (del_path p v) = None.
Proof.
  revert v. induction p as [|k p IH]; intros v Hp; [contradiction|].
  destruct v as [| | | | |d]; try reflexivity.
  destruct p as [|k2 p2].
  - simpl. pose proof (dict_facts.mem_del k d) as Hm. rewrite mem_get in Hm.
    destruct (dict.get k (dict.del k d)); [discriminate|reflexivity].
  - change (del_path (k :: k2 :: p2) (JObj d))
      with (match dict.get k d with
            | Some x => JObj (dict.set k (del_path (k2 :: p2) x) d)
            | None => JObj d
            end).
    destruct (dict.get k d) as [x|] eqn:Hk.
    + simpl get_path at 1. rewrite (get_set_eq _ _ _ _ Hk). apply IH. discriminate.
    + simpl. rewrite Hk. reflexivity.
Qed.

(** Deleting along [p] is invisible along every path that parts ways
    with [p]. *)
Lemma get_path_del_path_frame p : forall q v,
  diverges p q = true -> get_path q (del_path p v) = get_path q v.
Proof.
  induction p as [|k p IH]; intros q v Hd; [discriminate|].
  destruct q as [|k' q]; [discriminate|].
  destruct v as [| | | | |d]; try reflexivity.
  destruct p as [|k2 p2].
  - simpl in Hd. destruct (String.eqb k k') eqn:E; [discriminate|].
    simpl. rewrite get_del_ne; [reflexivity|].
    intros ->. rewrite String.eqb_refl in E. discriminate.
  - change (del_path (k :: k2 :: p2) (JObj d))
      with (match dict.get k d with
            | Some x => JObj (dict.set k (del_path (k2 :: p2) x) d)
            | None => JObj d
            end).
    destruct (dict.get k d) as [x|] eqn:Hk; [|reflexivity].
    simpl in Hd. simpl get_path.
    destruct (String.eqb k k') eqn:E.
    + apply String.eqb_eq in E. subst k'.
      rewrite (get_set_eq _ _ _ _ Hk), Hk. apply IH. exact Hd.
    + rewrite get_set_ne; [reflexivity|].
      intros ->. rewrite String.eqb_refl in E. discriminate.
Qed.

Lemma strip_frame item q :
  diverges nested_token q = true -> get_path q (strip item) = get_path q item.
Proof.
  intros Hd. unfold strip. destruct (is_note item); [|reflexivity].
  apply get_path_del_path_frame. exact Hd.
Qed.

Lemma strip_removes item : is_note item = true -> get_path nested_token (strip item) = None.
Proof.
  intros Hn. unfold strip. rewrite Hn. apply get_path_del_path. discriminate.
Qed.

(** A loop that runs to its end has stripped every item, and has counted
    and printed one line per item that carried the nested token. *)
Lemma clean_loop_ok data_array : forall n m,
  outcome (clean_loop data_array n) = Ok m ->
  array_after (clean_loop data_array n) = map strip data_array /\
  m = n + removed data_array /\
  List.length (printed (clean_loop data_array n)) = removed data_array.
Proof.
  unfold removed.
  induction data_array as [|item rest IH]; intros n m; simpl.
  - intros [= <-]. repeat split; lia.
  - destruct (step_res (clean_item item)) as [b|e] eqn:Hs; simpl; [|discriminate].
    intros Hr. destruct (clean_item_ok _ _ Hs) as (Ha & Hb & Hl).
    destruct (IH _ _ Hr) as (IHa & IHm & IHl).
    rewrite Ha, IHa, length_app, Hl, IHl, <- Hb.
    destruct b; simpl; repeat split; lia.
Qed.

(** Running the loop on what a completed loop left changes nothing,
    deletes nothing and prints nothing. *)
Lemma clean_loop_again data_array : forall n m k,
  outcome (clean_loop data_array n) = Ok m ->
  clean_loop (array_after (clean_loop data_array n)) k
  = Run (array_after (clean_loop data_array n)) [] (Ok k).
Proof.
  induction data_array as [|item rest IH]; intros n m k; simpl.
  - reflexivity.
  - destruct (step_res (clean_item item)) as [b|e] eqn:Hs; simpl; [|discriminate].
    intros Hr. rewrite (clean_item_again _ _ Hs). simpl.
    rewrite (IH _ _ k Hr). reflexivity.
Qed.

Lemma example_run :
  clean_xsec_tokens example_array
  = Run example_cleaned
        [LDeleted (JStr "note001"); LDeleted (JStr "note002"); LSummary 2]
        (Ok (JArr example_cleaned)).
Proof. reflexivity. Qed.

Lemma clean_item_returns item :
  well_shaped item = true -> exists b, step_res (clean_item item) = Ok b.
Proof.
  unfold well_shaped, is_note, clean_item.
  destruct item as [| | | |l|d]; simpl; eauto.
  destruct (dict.get "modelType" d) as [[| | |s| |]|]; simpl; eauto.
  destruct (String.eqb s "note"); simpl; eauto.
  destruct (dict.get "noteCard" d) as [[| | | | |nc]|]; simpl; try discriminate; eauto.
  rewrite mem_get.
  destruct (dict.get "user" nc) as [[| | | | |u]|]; simpl; try discriminate; eauto.
  destruct (dict.mem "xsecToken" u); simpl; eauto.
  destruct (dict.get "id" d) as [[| | |i| |]|]; simpl; try discriminate; eauto.
Qed.

(** On a well-shaped array the sanitizer returns. *)
Lemma clean_xsec_tokens_returns data_array :
  forallb well_shaped data_array = true ->
  outcome (clean_xsec_tokens data_array) = Ok (JArr (map strip data_array)).
Proof.
  intros Hw.
  assert (Hl : forall n, exists m, outcome (clean_loop data_array n) = Ok m).
  { induction data_array as [|item rest IH]; intros n; simpl; [eauto|].
    simpl in Hw. apply andb_prop in Hw as [Hi Hr].
    destruct (clean_item_returns _ Hi) as [b Hb]. rewrite Hb. simpl. apply IH, Hr. }
  destruct (Hl 0) as [m Hm].
  unfold clean_xsec_tokens. rewrite Hm. simpl.
  destruct (clean_loop_ok _ _ _ Hm) as (-> & _). reflexivity.
Qed.

(** C8, as amended: whenever the sanitizer returns, what it returns is the
    input list itself, cleaned in place: every object of the note kind
    has lost [noteCard.user.xsecToken], every path of an object that does
    not lead into the nested token, the top-level [xsecToken] among them,
    reads as before, objects of other kinds are unchanged, and the number
    of tokens removed is what the summary line prints; it is not the
    value returned. *)
Theorem clean_xsec_tokens_strips_notes data_array v :
  outcome (clean_xsec_tokens data_array) = Ok v ->
  v = JArr (map strip data_array) /\
  array_after (clean_xsec_tokens data_array) = map strip data_array /\
  (exists deleted,
      printed (clean_xsec_tokens data_array) = deleted ++ [LSummary (removed data_array)] /\
      List.length deleted = removed data_array) /\
  (forall item, is_note item = true -> get_path nested_token (strip item) = None) /\
  (forall item, get_path top_token (strip item) = get_path top_token item) /\
  (forall item q, diverges nested_token q = true ->
                  get_path q (strip item) = get_path q item) /\
  (forall item, is_note item = false -> strip item = item).
Proof.
  unfold clean_xsec_tokens.
  destruct (outcome (clean_loop data_array 0)) as [n|e] eqn:Hl;
    cbn [outcome array_after printed]; [|discriminate].
  intros [= <-].
  destruct (clean_loop_ok _ _ _ Hl) as (Ha & Hn & Hp). simpl in Hn. subst n.
  rewrite Ha. repeat split.
  - exists (printed (clean_loop data_array 0)). split; [reflexivity | exact Hp].
  - apply strip_removes.
  - intros item. apply strip_frame. reflexivity.
  - apply strip_frame.
  - intros item Hn. unfold strip. rewrite Hn. reflexivity.
Qed.

Lemma clean_xsec_tokens_strips_notes_witness :
  outcome (clean_xsec_tokens example_array) = Ok (JArr example_cleaned) /\
  JArr example_cleaned = JArr (map strip example_array).
Proof.
  split; [reflexivity|].
  apply (clean_xsec_tokens_strips_notes example_array (JArr example_cleaned)).
  reflexivity.
Defined.

(** C8, as stated, fails: on the module's own example two tokens are
    removed, and the value returned is the cleaned list, not the count. *)
Lemma clean_xsec_tokens_does_not_return_count :
  removed example_array = 2 /\
  outcome (clean_xsec_tokens example_array) = Ok (JArr example_cleaned) /\
  outcome (clean_xsec_tokens example_array)
  <> Ok (JNum (Z.of_nat (removed example_array))).
Proof. repeat split. discriminate. Qed.

(** C9: the sanitizer is idempotent. Applied to what a first application
    returned, it returns the same list and leaves the array as the first
    application left it; where the first application raises, so does the
    composition, with the same exception. *)
Theorem clean_xsec_tokens_idempotent data_array :
  outcome (clean_twice data_array) = outcome (clean_xsec_tokens data_array) /\
  array_after (clean_twice data_array) = array_after (clean_xsec_tokens data_array).
Proof.
  unfold clean_twice, clean_xsec_tokens.
  destruct (outcome (clean_loop data_array 0)) as [n|e] eqn:Hl; simpl; [|auto].
  rewrite (clean_loop_again _ _ _ 0 Hl). simpl. auto.
Qed.

End clean_array_facts.

Module comment_facts.
Import comment.

Lemma snd_let {A B C} (x : A * B) (f : A -> C) :
  snd (let (a, b) := x in (f a, b)) = snd x.
Proof. destruct x; reflexivity. Qed.

Lemma fst_let {A B C} (x : A * B) (f : A -> C) :
  fst (let (a, b) := x in (f a, b)) = f (fst x).
Proof. destruct x; reflexivity. Qed.

Lemma last_cons {A} (l : list A) : forall a d, last (a :: l) d = last l a.
Proof.
  induction l as [|b l IH]; intros a d; [reflexivity|].
  change (last (a :: b :: l) d) with (last (b :: l) d).
  rewrite (IH b d), (IH b a). reflexivity.
Qed.

Lemma reaches_absent page state timeout s :
  Nat.eqb (count page s) 0 = true -> reaches page state timeout s = false.
Proof. intros H. unfold reaches. rewrite H. reflexivity. Qed.

Lemma times_out_absent page state timeout s :
  Nat.eqb (count page s) 0 = true -> times_out page state timeout s = None.
Proof. intros H. unfold times_out. rewrite H. reflexivity. Qed.

Lemma reaches_reached page state timeout s :
  Nat.eqb (count page s) 0 = false -> wait_for page s state timeout = Reached ->
  reaches page state timeout s = true.
Proof. intros H Hw. unfold reaches. rewrite H, Hw. reflexivity. Qed.

Lemma reaches_timed_out page state timeout s msg :
  Nat.eqb (count page s) 0 = false -> wait_for page s state timeout = TimedOut msg ->
  reaches page state timeout s = false.
Proof. intros H Hw. unfold reaches. rewrite H, Hw. reflexivity. Qed.

Lemma times_out_timed_out page state timeout s msg :
  Nat.eqb (count page s) 0 = false -> wait_for page s state timeout = TimedOut msg ->
  times_out page state timeout s = Some (TimeoutError msg).
Proof. intros H Hw. unfold times_out. rewrite H, Hw. reflexivity. Qed.

(** The outcome of the editor loop, in full. *)
Lemma editor_loop_outcome page selectors : forall last_error,
  snd (editor_loop page selectors last_error)
  = match find (reaches page visible 30000) selectors with
    | Some selector => Ok (first selector)
    | None => Raise (editor_error page selectors last_error)
    end.
Proof.
  unfold editor_error.
  induction selectors as [|s rest IH]; intros le.
  - destruct le; reflexivity.
  - cbn [editor_loop find timeouts].
    destruct (Nat.eqb (count page s) 0) eqn:Hc.
    + rewrite (reaches_absent _ _ _ _ Hc), (times_out_absent _ _ _ _ Hc).
      rewrite snd_let. apply IH.
    + destruct (wait_for page s visible 30000) as [|msg] eqn:Hw.
      * rewrite (reaches_reached _ _ _ _ Hc Hw). reflexivity.
      * rewrite (reaches_timed_out _ _ _ _ _ Hc Hw), (times_out_timed_out _ _ _ _ _ Hc Hw).
        rewrite snd_let, IH.
        destruct (find (reaches page visible 30000) rest); [reflexivity|].
        rewrite last_cons. reflexivity.
Qed.

(** The outcome of the submit loop, in full. *)
Lemma submit_loop_outcome page candidates :
  snd (submit_loop page candidates)
  = match find (reaches page attached 10000) candidates with
    | Some selector => Ok (first selector)
    | None => fallback_outcome page
    end.
Proof.
  unfold fallback_outcome.
  induction candidates as [|s rest IH].
  - simpl. destruct (Nat.eqb (count page "button") 0); [reflexivity|].
    destruct (wait_for page "button" attached 5000); reflexivity.
  - cbn [submit_loop find].
    destruct (Nat.eqb (count page s) 0) eqn:Hc.
    + rewrite (reaches_absent _ _ _ _ Hc), snd_let. apply IH.
    + destruct (wait_for page s attached 10000) as [|msg] eqn:Hw.
      * rewrite (reaches_reached _ _ _ _ Hc Hw). reflexivity.
      * rewrite (reaches_timed_out _ _ _ _ _ Hc Hw), snd_let. apply IH.
Qed.

(** The selectors the loops look up when nothing reaches its state. *)
Lemma editor_loop_looked_up page selectors : forall last_error,
  exhausted page visible 30000 selectors ->
  looked_up (fst (editor_loop page selectors last_error)) = selectors.
Proof.
  unfold exhausted.
  induction selectors as [|s rest IH]; intros le.
  - destruct le; reflexivity.
  - cbn [editor_loop find].
    destruct (Nat.eqb (count page s) 0) eqn:Hc.
    + rewrite (reaches_absent _ _ _ _ Hc).
      intros H. rewrite fst_let. simpl. rewrite (IH _ H). reflexivity.
    + destruct (wait_for page s visible 30000) as [|msg] eqn:Hw.
      * rewrite (reaches_reached _ _ _ _ Hc Hw). discriminate.
      * rewrite (reaches_timed_out _ _ _ _ _ Hc Hw).
        intros H. rewrite fst_let. simpl. rewrite (IH _ H). reflexivity.
Qed.

Lemma submit_loop_looked_up page candidates :
  exhausted page attached 10000 candidates ->
  looked_up (fst (submit_loop page candidates)) = candidates ++ ["button"].
Proof.
  unfold exhausted.
  induction candidates as [|s rest IH].
  - intros _. simpl. destruct (Nat.eqb (count page "button") 0); [reflexivity|].
    destruct (wait_for page "button" attached 5000); reflexivity.
  - cbn [submit_loop find].
    destruct (Nat.eqb (count page s) 0) eqn:Hc.
    + rewrite (reaches_absent _ _ _ _ Hc).
      intros H. rewrite fst_let. simpl. rewrite (IH H). reflexivity.
    + destruct (wait_for page s attached 10000) as [|msg] eqn:Hw.
      * rewrite (reaches_reached _ _ _ _ Hc Hw). discriminate.
      * rewrite (reaches_timed_out _ _ _ _ _ Hc Hw).
        intros H. rewrite fst_let. simpl. rewrite (IH H). reflexivity.
Qed.

(** Every selector a loop waits on matched an element when looked up. *)
Lemma editor_loop_waited_on page selectors : forall last_error,
  Forall (fun s => count page s <> 0) (waited_on (fst (editor_loop page selectors last_error))).
Proof.
  induction selectors as [|s rest IH]; intros le; simpl.
  - destruct le; constructor.
  - destruct (Nat.eqb (count page s) 0) eqn:Hc.
    + rewrite fst_let. simpl. apply IH.
    + apply Nat.eqb_neq in Hc.
      destruct (wait_for page s visible 30000) as [|msg].
      * simpl. repeat constructor. exact Hc.
      * rewrite fst_let. simpl. constructor; [exact Hc | apply IH].
Qed.

Lemma submit_loop_waited_on page candidates :
  Forall (fun s => count page s <> 0) (waited_on (fst (submit_loop page candidates))).
Proof.
  induction candidates as [|s rest IH]; simpl.
  - destruct (Nat.eqb (count page "button") 0) eqn:Hc; [constructor|].
    apply Nat.eqb_neq in Hc.
    destruct (wait_for page "button" attached 5000); simpl; repeat constructor; exact Hc.
  - destruct (Nat.eqb (count page s) 0) eqn:Hc.
    + rewrite fst_let. simpl. apply IH.
    + apply Nat.eqb_neq in Hc.
      destruct (wait_for page s attached 10000) as [|msg].
      * simpl. repeat constructor. exact Hc.
      * rewrite fst_let. simpl. constructor; [exact Hc | apply IH].
Qed.

Lemma timeouts_class page state timeout selectors :
  Forall (fun e => exn_class e = "TimeoutError") (timeouts page state timeout selectors).
Proof.
  induction selectors as [|s rest IH]; simpl; [constructor|].
  unfold times_out.
  destruct (Nat.eqb (count page s) 0); [exact IH|].
  destruct (wait_for page s state timeout); [exact IH|].
  constructor; [reflexivity | exact IH].
Qed.

Lemma last_Forall {A} (P : A -> Prop) (l : list A) (d : A) :
  Forall P l -> P d -> P (last l d).
Proof.
  induction 1 as [|a l Ha Hl IH]; intros Hd; [exact Hd|].
  rewrite last_cons. clear IH. revert a Ha.
  induction Hl as [|b l Hb Hl IH]; intros a Ha; [exact Ha|].
  rewrite last_cons. apply IH. exact Hb.
Qed.

Lemma find_first {A} (P : A -> bool) before x after :
  Forall (fun b => P b = false) before -> P x = true ->
  find P (before ++ x :: after) = Some x.
Proof.
  induction 1 as [|b before Hb _ IH]; intros Hx; simpl.
  - rewrite Hx. reflexivity.
  - rewrite Hb. apply IH, Hx.
Qed.

(** C4: the locator returns the first candidate, in list order, that
    reaches its required state within its own timeout (it matches an
    element and the wait on its first match returns); the candidates
    listed before it, whether they match nothing or time out, do not keep
    it from being tried and returned. *)
Theorem locate_returns_first_reaching (op : locate_op) page before selector after :
  Forall (fun b => reaches page (op_state op) (op_timeout op) b = false) before ->
  reaches page (op_state op) (op_timeout op) selector = true ->
  snd (op_loop op page (before ++ selector :: after)) = Ok (first selector).
Proof.
  intros Hb Hs. destruct op; simpl in *.
  - rewrite editor_loop_outcome, (find_first _ _ _ _ Hb Hs). reflexivity.
  - rewrite submit_loop_outcome, (find_first _ _ _ _ Hb Hs). reflexivity.
Qed.

Lemma locate_returns_first_reaching_witness :
  times_out flaky_page visible 30000 "div.input-box div.content-edit p.content-input"
  = Some (TimeoutError "Timeout 30000ms exceeded.") /\
  snd (_locate_editor flaky_page) = Ok (first "div.input-box div.content-edit span").
Proof.
  split; [reflexivity|].
  apply (locate_returns_first_reaching locate_editor flaky_page
           ["div.input-box div.content-edit p.content-input"]
           "div.input-box div.content-edit span"
           ["textarea"; "div[contenteditable='true']"]).
  - repeat constructor.
  - reflexivity.
Defined.

(** C5: a candidate whose selector matches zero elements is never waited
    on: the locator only looks it up and moves on; every wait is on a
    selector that matches at least one element. *)
Theorem locate_never_waits_on_absent (op : locate_op) page selectors s :
  count page s = 0 ->
  ~ In s (waited_on (fst (op_loop op page selectors))).
Proof.
  intros Hc Hin.
  assert (H : Forall (fun s => count page s <> 0) (waited_on (fst (op_loop op page selectors)))).
  { destruct op; [apply editor_loop_waited_on | apply submit_loop_waited_on]. }
  rewrite Forall_forall in H. exact (H s Hin Hc).
Qed.

Lemma locate_never_waits_on_absent_witness :
  count blank_page "textarea" = 0 /\
  ~ In "textarea" (waited_on (fst (_locate_editor blank_page))).
Proof.
  split; [reflexivity|].
  apply (locate_never_waits_on_absent locate_editor blank_page editor_selectors "textarea").
  reflexivity.
Defined.

(** C6, as amended: when every candidate is exhausted, the submit locator
    looks up one more selector, [button], after its candidates, and its
    outcome is that of this fallback; the editor locator looks up its
    candidates and nothing else, and fails. *)
Theorem fallback_after_submit_candidates page selectors :
  (exhausted page attached 10000 selectors ->
   looked_up (fst (submit_loop page selectors)) = selectors ++ ["button"] /\
   snd (submit_loop page selectors) = fallback_outcome page) /\
  (exhausted page visible 30000 selectors ->
   forall last_error,
     looked_up (fst (editor_loop page selectors last_error)) = selectors /\
     is_ok (snd (editor_loop page selectors last_error)) = false).
Proof.
  split; intros He.
  - split; [apply submit_loop_looked_up, He|].
    rewrite submit_loop_outcome. unfold exhausted in He. rewrite He. reflexivity.
  - intros le. split; [apply editor_loop_looked_up, He|].
    rewrite editor_loop_outcome. unfold exhausted in He. rewrite He. reflexivity.
Qed.

Lemma fallback_after_submit_candidates_witness :
  (looked_up (fst (_locate_submit blank_page)) = submit_candidates ++ ["button"] /\
   snd (_locate_submit blank_page) = fallback_outcome blank_page) /\
  (looked_up (fst (_locate_editor blank_page)) = editor_selectors /\
   is_ok (snd (_locate_editor blank_page)) = false).
Proof.
  split.
  - apply (proj1 (fallback_after_submit_candidates blank_page submit_candidates)).
    reflexivity.
  - apply (proj2 (fallback_after_submit_candidates blank_page editor_selectors)).
    reflexivity.
Defined.

(** C6, as stated, fails: on a page where nothing matches, the editor
    locator looks up its four candidates and no fallback after them. *)
Lemma editor_has_no_fallback :
  ~ (forall op page,
        exhausted page (op_state op) (op_timeout op) (op_candidates op) ->
        applies_fallback op page).
Proof.
  intros H.
  destruct (H locate_editor blank_page eq_refl) as (fallback & _ & Hl).
  discriminate Hl.
Qed.

(** When every candidate is exhausted, either none matched an element
    and no wait was made, or the last timeout error is the one the driver
    raised for a listed candidate that matched. *)
Lemma exhausted_timeouts page state timeout selectors :
  exhausted page state timeout selectors ->
  (Forall (fun s => count page s = 0) selectors /\
   timeouts page state timeout selectors = []) \/
  (exists s msg,
      In s selectors /\ count page s <> 0 /\
      wait_for page s state timeout = TimedOut msg /\
      forall d, last (timeouts page state timeout selectors) d = TimeoutError msg).
Proof.
  unfold exhausted.
  induction selectors as [|s rest IH]; [left; split; [constructor | reflexivity]|].
  cbn [find timeouts].
  destruct (Nat.eqb (count page s) 0) eqn:Hc.
  - rewrite (reaches_absent _ _ _ _ Hc), (times_out_absent _ _ _ _ Hc).
    apply Nat.eqb_eq in Hc. intros H. destruct (IH H) as [[Hz Ht]|(s' & msg & Hin & Hr)].
    + left. split; [constructor; assumption | exact Ht].
    + right. exists s', msg. split; [right; exact Hin | exact Hr].
  - destruct (wait_for page s state timeout) as [|msg] eqn:Hw.
    + rewrite (reaches_reached _ _ _ _ Hc Hw). discriminate.
    + rewrite (reaches_timed_out _ _ _ _ _ Hc Hw), (times_out_timed_out _ _ _ _ _ Hc Hw).
      intros H. right. destruct (IH H) as [[_ Ht]|(s' & msg' & Hin & Hn & Hw' & Hl)].
      * exists s, msg. rewrite Ht. apply Nat.eqb_neq in Hc.
        repeat split; [left; reflexivity | exact Hc | exact Hw].
      * exists s', msg'. repeat split; [right; exact Hin | exact Hn | exact Hw'|].
        intros d. rewrite last_cons. apply Hl.
Qed.

Lemma editor_loop_ignores_content page text selectors : forall last_error,
  editor_loop (with_content page text) selectors last_error
  = editor_loop page selectors last_error.
Proof.
  induction selectors as [|s rest IH]; intros le; [reflexivity|].
  cbn [editor_loop with_content count wait_for].
  destruct (Nat.eqb (count page s) 0); [rewrite IH; reflexivity|].
  destruct (wait_for page s visible 30000); [reflexivity | rewrite IH; reflexivity].
Qed.

(** C7, as amended: when every candidate is exhausted, the editor locator
    raises a [TimeoutError], never an [ElementNotFound]: when no
    candidate matched an element, its own, with the fixed message
    "Comment editor not found"; otherwise the error of the last wait that
    timed out, on a listed candidate that matched, with the driver's
    message unchanged. The locator attaches neither the candidate list nor
    the document text to it: the message is the fixed one or the driver's,
    and the run is the same on a page that differs only in its document
    text. *)
Theorem editor_exhausted_raises_timeout page selectors :
  exhausted page visible 30000 selectors ->
  snd (editor_loop page selectors None)
  = Raise (last (timeouts page visible 30000 selectors)
                (TimeoutError "Comment editor not found")) /\
  exn_class (last (timeouts page visible 30000 selectors)
                  (TimeoutError "Comment editor not found")) = "TimeoutError" /\
  ((Forall (fun s => count page s = 0) selectors /\
    snd (editor_loop page selectors None) = Raise (TimeoutError "Comment editor not found")) \/
   (exists s msg,
       In s selectors /\ count page s <> 0 /\
       wait_for page s visible 30000 = TimedOut msg /\
       snd (editor_loop page selectors None) = Raise (TimeoutError msg))) /\
  (forall text,
      editor_loop (with_content page text) selectors None = editor_loop page selectors None).
Proof.
  intros He.
  assert (Ho : snd (editor_loop page selectors None)
               = Raise (last (timeouts page visible 30000 selectors)
                             (TimeoutError "Comment editor not found"))).
  { rewrite editor_loop_outcome. unfold exhausted in He. rewrite He. reflexivity. }
  split; [exact Ho|]. split; [apply last_Forall; [apply timeouts_class | reflexivity]|].
  split; [|intros text; apply editor_loop_ignores_content].
  rewrite Ho. destruct (exhausted_timeouts _ _ _ _ He) as [[Hz Ht]|(s & msg & Hin & Hn & Hw & Hl)].
  - left. split; [exact Hz|]. rewrite Ht. reflexivity.
  - right. exists s, msg. rewrite Hl. repeat split; assumption.
Qed.

Lemma editor_exhausted_raises_timeout_witness :
  snd (_locate_editor blank_page) = Raise (TimeoutError "Comment editor not found") /\
  exn_class (TimeoutError "Comment editor not found") = "TimeoutError".
Proof.
  destruct (editor_exhausted_raises_timeout blank_page editor_selectors eq_refl)
    as (Ho & Hc & _).
  split; [exact Ho | exact Hc].
Defined.

(** C7, as stated, fails: on a page where nothing matches, the error is a
    [TimeoutError] whose only content is a fixed message. *)
Lemma editor_error_is_not_element_not_found :
  ~ (forall page,
        exhausted page visible 30000 editor_selectors ->
        exists e, snd (_locate_editor page) = Raise e /\
                  element_not_found page editor_selectors e).
Proof.
  intros H.
  destruct (H blank_page eq_refl) as (e & He & Hc & _).
  injection He as <-. discriminate Hc.
Qed.

End comment_facts.

Module mcp_server_facts.
Import mcp_server.

(** *** The log and the outcome of the combinators *)

Lemma fst_bind {A B} (m : M A) (f : A -> M B) :
  fst (bind m f) = fst m ++ match snd m with Ok a => fst (f a) | Raise _ => [] end.
Proof.
  destruct m as [t [a|e]]; simpl; [|rewrite app_nil_r; reflexivity].
  destruct (f a); reflexivity.
Qed.

Lemma snd_bind {A B} (m : M A) (f : A -> M B) :
  snd (bind m f) = match snd m with Ok a => snd (f a) | Raise e => Raise e end.
Proof. destruct m as [t [a|e]]; simpl; [|reflexivity]. destruct (f a); reflexivity. Qed.

Lemma fst_try_finally {A} (body : M A) (final : M unit) :
  fst (try_finally body final) = fst body ++ fst final.
Proof. destruct body, final; reflexivity. Qed.

Lemma snd_try_finally {A} (body : M A) (final : M unit) :
  snd (try_finally body final)
  = match snd final with Raise e => Raise e | Ok _ => snd body end.
Proof. destruct body, final; reflexivity. Qed.

Lemma fst_try_except {A} (body : M A) (handle : exn -> M A) :
  fst (try_except body handle)
  = fst body ++ match snd body with Raise e => fst (handle e) | Ok _ => [] end.
Proof.
  destruct body as [t [a|e]]; simpl; [rewrite app_nil_r; reflexivity|].
  destruct (handle e); reflexivity.
Qed.

Lemma snd_try_except {A} (body : M A) (handle : exn -> M A) :
  snd (try_except body handle)
  = match snd body with Raise e => snd (handle e) | Ok a => Ok a end.
Proof. destruct body as [t [a|e]]; simpl; [reflexivity|]. destruct (handle e); reflexivity. Qed.

Lemma fst_do o out : fst (do_ o out) = [released o out].
Proof. destruct out; reflexivity. Qed.

Lemma snd_do o out :
  snd (do_ o out) = match out with None => Ok tt | Some e => Raise e end.
Proof. destruct out; reflexivity. Qed.

Lemma fst_call {A} o (out : result A) :
  fst (call o out) = [match out with Ok _ => Did o | Raise e => Failed o e end].
Proof. destruct out; reflexivity. Qed.

Lemma snd_call {A} o (out : result A) : snd (call o out) = out.
Proof. destruct out; reflexivity. Qed.

(** An acquisition that returns, around a body: the acquisition, the
    body's log, the release. *)
Lemma fst_with_acquired {B} o o' out (body : unit -> M B) :
  fst (with_ (Manager (do_ o None) (do_ o' out)) body)
  = Did o :: fst (body tt) ++ [released o' out].
Proof. unfold with_. rewrite fst_bind. simpl. rewrite fst_try_finally, fst_do. reflexivity. Qed.

Lemma snd_with_acquired {B} o o' out (body : unit -> M B) :
  snd (with_ (Manager (do_ o None) (do_ o' out)) body)
  = match out with Some e => Raise e | None => snd (body tt) end.
Proof.
  unfold with_. rewrite snd_bind. simpl. rewrite snd_try_finally, snd_do.
  destruct out; reflexivity.
Qed.

(** *** Logs all of whose events satisfy a test *)

Section all_events.
Variable P : event -> bool.

Lemma all_ret {A} (a : A) : all P (ret a).
Proof. reflexivity. Qed.

Lemma all_bind {A B} (m : M A) (f : A -> M B) :
  all P m -> (forall a, all P (f a)) -> all P (bind m f).
Proof.
  unfold all. intros Hm Hf. rewrite fst_bind, forallb_app, Hm. simpl.
  destruct (snd m); [apply Hf | reflexivity].
Qed.

Lemma all_try_finally {A} (body : M A) (final : M unit) :
  all P body -> all P final -> all P (try_finally body final).
Proof.
  unfold all. intros Hb Hf. rewrite fst_try_finally, forallb_app, Hb, Hf. reflexivity.
Qed.

Lemma all_try_except {A} (body : M A) (handle : exn -> M A) :
  all P body -> (forall e, all P (handle e)) -> all P (try_except body handle).
Proof.
  unfold all. intros Hb Hh. rewrite fst_try_except, forallb_app, Hb. simpl.
  destruct (snd body); [reflexivity | apply Hh].
Qed.

Lemma all_call {A} o (out : result A) :
  P (Did o) = true -> (forall e, P (Failed o e) = true) -> all P (call o out).
Proof.
  unfold all. intros Hd Hf. rewrite fst_call. simpl.
  destruct out; [rewrite Hd | rewrite Hf]; reflexivity.
Qed.

Lemma all_do o out :
  P (Did o) = true -> (forall e, P (Failed o e) = true) -> all P (do_ o out).
Proof. intros Hd Hf. apply all_call; assumption. Qed.

End all_events.

Lemma teardown_all P w debug_dir trace console_logs :
  (forall o e, releases o = None -> acquires o = None ->
               (forall h, o <> InHandler h) -> P (Did o) = true /\ P (Failed o e) = true) ->
  all P (teardown w debug_dir trace console_logs).
Proof.
  intros HP.
  assert (Hdo : forall o out, releases o = None -> acquires o = None ->
                              (forall h, o <> InHandler h) -> all P (do_ o out)).
  { intros o out H1 H2 H3. apply all_do; [|intros e]; apply (HP o (Exn "" "")) || apply (HP o e);
      assumption. }
  assert (Hcall : forall A o (out : result A), releases o = None -> acquires o = None ->
                              (forall h, o <> InHandler h) -> all P (call o out)).
  { intros A o out H1 H2 H3. apply all_call; [|intros e]; apply (HP o (Exn "" "")) || apply (HP o e);
      assumption. }
  unfold teardown, capture_diagnostics.
  repeat first
    [ apply all_ret
    | apply all_bind; [|intros ?]
    | apply all_try_except; [|intros ?]
    | apply Hdo; [reflexivity | reflexivity | discriminate]
    | apply Hcall; [reflexivity | reflexivity | discriminate]
    | match goal with |- all _ (match ?x with _ => _ end) => destruct x end
    | match goal with |- all _ (if ?x then _ else _) => destruct x end ].
Qed.

Lemma teardown_neutral w debug_dir trace console_logs :
  all neutral (teardown w debug_dir trace console_logs).
Proof.
  apply teardown_all. intros o e Hr Ha _. unfold neutral. rewrite Hr, Ha. auto.
Qed.

Lemma teardown_outside_handler w debug_dir trace console_logs :
  all outside_handler (teardown w debug_dir trace console_logs).
Proof.
  apply teardown_all. intros o e _ _ Hh.
  destruct o; try (split; reflexivity). destruct (Hh h eq_refl).
Qed.

Lemma run_handler_neutral {T} (h : list hevent * result T) : all neutral (run_handler h).
Proof.
  unfold all, run_handler. simpl. induction (fst h) as [|e l IH]; [reflexivity | exact IH].
Qed.

Lemma session_body_neutral {T} w cookies_file debug_dir trace (handler : handler_type T) :
  all neutral (session_body w cookies_file debug_dir trace handler).
Proof.
  unfold session_body.
  apply all_bind; [|intros _; apply all_bind; [|intros p; apply all_bind; [|intros _]]].
  - destruct debug_dir; [destruct trace|]; try apply all_ret.
    apply all_do; [reflexivity | intros; reflexivity].
  - apply all_call; [reflexivity | intros; reflexivity].
  - destruct debug_dir; [|apply all_ret].
    apply all_do; [reflexivity | intros; reflexivity].
  - apply all_try_finally; [apply run_handler_neutral | apply teardown_neutral].
Qed.

(** *** Resources live along a log *)

Lemma live_after_app t1 : forall live t2,
  live_after live (t1 ++ t2)
  = match live_after live t1 with
    | Some live' => live_after live' t2
    | None => None
    end.
Proof.
  induction t1 as [|ev t1 IH]; intros live t2; [reflexivity|].
  destruct ev as [o|o e]; simpl; destruct (releases o) as [r|];
    try (destruct live as [|r' live']; [reflexivity|];
         destruct (resource_eqb r r'); [apply IH | reflexivity]);
    try (destruct (acquires o); apply IH).
Qed.

Lemma live_after_neutral t : forall live,
  forallb neutral t = true -> live_after live t = Some live.
Proof.
  induction t as [|ev t IH]; intros live; [reflexivity|].
  simpl. intros H. apply andb_prop in H as [Hev Ht].
  destruct ev as [o|o e]; simpl in Hev;
    destruct (acquires o), (releases o); try discriminate; apply IH, Ht.
Qed.

(** A computation that leaves live exactly what it found live. *)
Lemma with_balanced {B} o o' r out out' (body : unit -> M B) :
  acquires o = Some r -> releases o = None -> releases o' = Some r ->
  (forall live, live_after live (fst (body tt)) = Some live) ->
  forall live,
    live_after live (fst (with_ (Manager (do_ o out) (do_ o' out')) body)) = Some live.
Proof.
  intros Ha Hr Hr' Hb live. destruct out as [e|].
  - simpl. rewrite Hr. reflexivity.
  - rewrite fst_with_acquired. simpl. rewrite Hr, Ha.
    rewrite live_after_app, Hb.
    destruct out'; simpl; rewrite Hr'; destruct r; reflexivity.
Qed.

(** Whatever happens, no session resource is left live: every resource
    that was acquired is released, the one acquired last first. *)
Lemma no_resource_left_live {T} w profile cookies_path chrome_bin debug_dir trace
    (handler : handler_type T) :
  live_after [] (fst (_run_with_page_sync w profile cookies_path chrome_bin debug_dir trace handler))
  = Some [].
Proof.
  unfold _run_with_page_sync, pw, launch, new_context.
  destruct (get_chrome_executable w chrome_bin) as [exe|e]; [|reflexivity].
  apply (with_balanced _ _ Driver); try reflexivity. intros live1.
  apply (with_balanced _ _ Browser); try reflexivity. intros live2.
  apply (with_balanced _ _ Context); try reflexivity. intros live3.
  apply live_after_neutral, session_body_neutral.
Qed.

(** C2: once the driver, the browser and the context are acquired, every
    way out of the session, whether the handler returns, the handler
    raises or the diagnostics capture raises, ends the log with the
    release of the context, then of the browser, then of the driver: the
    reverse of the order of acquisition, each release attempted whether
    or not the one before it raised; nothing in between acquires or
    releases a session resource. *)
Theorem releases_in_reverse_order {T} w profile cookies_path chrome_bin debug_dir trace
    (handler : handler_type T) chrome_exe :
  get_chrome_executable w chrome_bin = Ok chrome_exe ->
  pw_start w = None -> browser_launch w = None -> context_new w = None ->
  exists inside,
    fst (_run_with_page_sync w profile cookies_path chrome_bin debug_dir trace handler)
    = [Did PwStart; Did (Launch chrome_exe);
       Did (NewContext (get_cookies_path w cookies_path profile))]
      ++ inside
      ++ [released ContextClose (context_close w);
          released BrowserClose (browser_close w);
          released PwStop (pw_stop w)] /\
    forallb neutral inside = true.
Proof.
  intros Hexe Hpw Hl Hc.
  exists (fst (session_body w (get_cookies_path w cookies_path profile) debug_dir trace handler)).
  split; [|apply session_body_neutral].
  unfold _run_with_page_sync, pw, launch, new_context. rewrite Hexe, Hpw, Hl, Hc.
  rewrite !fst_with_acquired. simpl. rewrite <- !app_assoc. reflexivity.
Qed.

Lemma releases_in_reverse_order_witness :
  exists inside,
    fst (_run_with_page_sync (closed_page_world idle_page) None None None
                             (Some "debug") true failing_handler)
    = [Did PwStart; Did (Launch None); Did (NewContext "profiles/default.json")]
      ++ inside
      ++ [Did ContextClose; Did BrowserClose; Did PwStop] /\
    forallb neutral inside = true.
Proof.
  apply (releases_in_reverse_order (closed_page_world idle_page) None None None
           (Some "debug") true failing_handler None); reflexivity.
Defined.

(** *** The handler's error and the teardown *)

Lemma teardown_returns w debug_dir trace console_logs :
  teardown_ok w = true -> snd (teardown w debug_dir trace console_logs) = Ok tt.
Proof.
  unfold teardown_ok, teardown, capture_diagnostics.
  destruct (page_content w); simpl; [|intros H; discriminate H].
  destruct (mkdir w); [intros H; discriminate H|].
  destruct (write_dom w); [intros H; discriminate H|].
  destruct (write_screenshot_error w); [intros H; discriminate H|].
  destruct (write_console w); [intros H; discriminate H|].
  destruct (tracing_stop w); [intros H; discriminate H|].
  intros _. destruct debug_dir, trace, (screenshot w); reflexivity.
Qed.

Lemma session_body_outcome {T} w cookies_file debug_dir trace (handler : handler_type T) p :
  tracing_start w = None -> new_page w = Ok p -> page_on w = None ->
  teardown_ok w = true ->
  snd (session_body w cookies_file debug_dir trace handler)
  = snd (handler {| page := p |} cookies_file).
Proof.
  intros Hts Hp Hon Htd. unfold session_body.
  rewrite Hts, Hp, Hon.
  destruct debug_dir as [d|], trace;
    repeat (rewrite snd_bind; cbn [snd do_ call ret]);
    rewrite snd_try_finally, (teardown_returns _ _ _ _ Htd); reflexivity.
Qed.

(** The one guarded step of the teardown: when the handler raises, a
    screenshot that cannot be taken does not replace the handler's error,
    as long as every other step of the teardown returns. *)
Theorem handler_error_survives_screenshot_failure {T} w profile cookies_path chrome_bin
    debug_dir trace (handler : handler_type T) p hs e :
  setup_ok w chrome_bin = true ->
  teardown_ok w = true ->
  new_page w = Ok p ->
  handler {| page := p |} (get_cookies_path w cookies_path profile) = (hs, Raise e) ->
  snd (_run_with_page_sync w profile cookies_path chrome_bin debug_dir trace handler) = Raise e.
Proof.
  intros Hs Ht Hp Hh.
  assert (Hb : snd (session_body w (get_cookies_path w cookies_path profile)
                                 debug_dir trace handler) = Raise e).
  { revert Hs. unfold setup_ok.
    destruct (tracing_start w) eqn:E1; [destruct (pw_start w), (browser_launch w), (context_new w);
                                         rewrite andb_false_r; discriminate|].
    destruct (page_on w) eqn:E2; [destruct (pw_start w), (browser_launch w), (context_new w);
                                   rewrite andb_false_r; discriminate|].
    intros _. rewrite (session_body_outcome _ _ _ _ _ p E1 Hp E2 Ht), Hh. reflexivity. }
  revert Hs Ht. unfold setup_ok, teardown_ok, _run_with_page_sync, pw, launch, new_context.
  destruct (get_chrome_executable w chrome_bin); [|intros H; discriminate H].
  destruct (pw_start w); [rewrite andb_false_r; intros H; discriminate H|].
  destruct (browser_launch w); [rewrite andb_false_r; intros H; discriminate H|].
  destruct (context_new w); [rewrite andb_false_r; intros H; discriminate H|].
  intros _.
  destruct (context_close w);
    [destruct (mkdir w), (write_dom w), (write_screenshot_error w), (write_console w),
              (tracing_stop w); rewrite andb_false_r; intros H; discriminate H|].
  destruct (browser_close w);
    [destruct (mkdir w), (write_dom w), (write_screenshot_error w), (write_console w),
              (tracing_stop w); rewrite andb_false_r; intros H; discriminate H|].
  destruct (pw_stop w);
    [destruct (mkdir w), (write_dom w), (write_screenshot_error w), (write_console w),
              (tracing_stop w); rewrite andb_false_r; intros H; discriminate H|].
  intros _. rewrite !snd_with_acquired. exact Hb.
Qed.

(** The screenshot fails in a session with a diagnostics directory: the
    note is written next to the document text and the console log, and
    the call fails with the handler's error. *)
Example screenshot_failure_scenario :
  _run_with_page_sync (no_screenshot_world idle_page) None None None
                      (Some "debug") false failing_handler
  = ([ Did PwStart; Did (Launch None); Did (NewContext "profiles/default.json");
       Did NewPage; Did OnConsole;
       Did (InHandler (Act "goto"));
       Did (InHandler (ConsoleMsg "error" "net::ERR_FAILED"));
       Did (Mkdir "debug"); Did PageContent;
       Did (WriteText "debug/dom.html" "<html></html>");
       Failed (Screenshot "debug/page.png") (Exn "Error" "Page.screenshot: Protocol error");
       Did (WriteText "debug/screenshot-error.log" "Page.screenshot: Protocol error");
       Did (WriteText "debug/console.log" "[error] net::ERR_FAILED");
       Did ContextClose; Did BrowserClose; Did PwStop ],
     Raise (RuntimeError "Login timed out.")).
Proof. reflexivity. Qed.

Lemma handler_error_survives_screenshot_failure_witness :
  snd (_run_with_page_sync (no_screenshot_world idle_page) None None None
                           (Some "debug") true failing_handler)
  = Raise (RuntimeError "Login timed out.").
Proof.
  apply (handler_error_survives_screenshot_failure
           (no_screenshot_world idle_page) None None None (Some "debug") true
           failing_handler idle_page
           [Act "goto"; ConsoleMsg "error" "net::ERR_FAILED"]);
    reflexivity.
Defined.

(** The page is gone when the teardown reads its document text. *)
Example closed_page_scenario :
  _run_with_page_sync (closed_page_world idle_page) None None None
                      (Some "debug") false failing_handler
  = ([ Did PwStart; Did (Launch None); Did (NewContext "profiles/default.json");
       Did NewPage; Did OnConsole;
       Did (InHandler (Act "goto"));
       Did (InHandler (ConsoleMsg "error" "net::ERR_FAILED"));
       Did (Mkdir "debug");
       Failed PageContent
              (Exn "Error" "Page.content: Target page, context or browser has been closed");
       Did ContextClose; Did BrowserClose; Did PwStop ],
     Raise (Exn "Error" "Page.content: Target page, context or browser has been closed")).
Proof. reflexivity. Qed.

(** It is not so that the call always fails with the handler's error:
    when reading the document text for [dom.html] raises in the [finally]
    block, the call fails with the teardown's error. *)
Lemma teardown_error_replaces_handler_error :
  ~ (forall (w : World) debug_dir trace (handler : handler_type json) p hs e,
        setup_ok w None = true ->
        new_page w = Ok p ->
        handler {| page := p |} (get_cookies_path w None None) = (hs, Raise e) ->
        snd (_run_with_page_sync w None None None debug_dir trace handler) = Raise e).
Proof.
  intros H.
  specialize (H (closed_page_world idle_page) (Some "debug") false failing_handler
                idle_page _ _ eq_refl eq_refl eq_refl).
  rewrite closed_page_scenario in H. discriminate H.
Qed.

(** C1: the code breaks the claim. The handler raises its error with a
    diagnostics directory set; when the page is gone as the [finally]
    block reads its document text for [dom.html], the call fails with that
    read's error and the handler's error is lost, whereas a failure of the
    screenshot, the guarded step of the same block, leaves the handler's
    error as the call's. *)
Theorem finally_block_masks_handler_error :
  snd (failing_handler {| page := idle_page |} "profiles/default.json")
  = Raise (RuntimeError "Login timed out.") /\
  snd (_run_with_page_sync (closed_page_world idle_page) None None None
                           (Some "debug") false failing_handler)
  = Raise (Exn "Error" "Page.content: Target page, context or browser has been closed") /\
  snd (_run_with_page_sync (no_screenshot_world idle_page) None None None
                           (Some "debug") false failing_handler)
  = Raise (RuntimeError "Login timed out.").
Proof.
  split; [reflexivity|]. split.
  - unfold _run_with_page_sync, pw, launch, new_context. simpl get_chrome_executable.
    cbv iota. rewrite !snd_with_acquired. reflexivity.
  - unfold _run_with_page_sync, pw, launch, new_context. simpl get_chrome_executable.
    cbv iota. rewrite !snd_with_acquired. reflexivity.
Qed.

(** With an image path the wrapper is entered: the first thing
    [publish_image] does is to start the driver. *)
Example publish_image_acquires_otherwise :
  fst (publish_image (quiet_world idle_page) no_defaults
                     (fun _ _ => ([Act "publish"], Ok tt))
                     "title" "content" ["a.png"] (Some ["#tag"; ""])
                     None None None None None)
  = [ Did PwStart; Did (Launch None); Did (NewContext "profiles/default.json");
      Did NewPage; Did (InHandler (Act "publish"));
      Did ContextClose; Did BrowserClose; Did PwStop ].
Proof. reflexivity. Qed.

(** C10: with no image path, [publish_image] raises its [ValueError] at
    once: the log is empty, so neither driver, browser, context nor page
    was asked for, the handler did not run and nothing was written. *)
Theorem publish_image_rejects_empty_paths w DEFAULTS publish title content tags
    profile cookies_path chrome_bin debug_dir trace :
  publish_image w DEFAULTS publish title content [] tags
                profile cookies_path chrome_bin debug_dir trace
  = ([], Raise (ValueError "image_paths must contain at least one file")).
Proof. reflexivity. Qed.

(** *** The login handshake *)

Section polling.
Variables (p : LivePage) (deadline interval : Z).
Hypothesis interval_pos : (0 < interval)%Z.




End polling.


Lemma handler_events_app t1 t2 :
  handler_events (t1 ++ t2) = handler_events t1 ++ handler_events t2.
Proof.
  induction t1 as [|ev t1 IH]; [reflexivity|].
  destruct ev as [[]|]; simpl; rewrite IH; reflexivity.
Qed.

Lemma handler_events_outside t : forallb outside_handler t = true -> handler_events t = [].
Proof.
  induction t as [|ev t IH]; [reflexivity|].
  simpl. intros H. apply andb_prop in H as [Hev Ht].
  destruct ev as [[]|]; simpl in *; try discriminate; apply IH, Ht.
Qed.








(** Nobody scans the code, and the page is gone when the teardown reads
    its document text: nothing is saved, and the call fails with the
    teardown's error in place of the login-timeout error. *)
Example login_timeout_masked_scenario :
  snd (wait_for_login_complete (closed_page_world idle_page) no_defaults 240 500
                               None None None (Some "debug") None)
  = Raise (Exn "Error" "Page.content: Target page, context or browser has been closed").
Proof. vm_compute. reflexivity. Qed.


End mcp_server_facts.

(** * Further properties of the sanitizers *)

Module clean_json_facts.
Import clean_array clean_json dict_facts clean_array_facts.

(** Whatever an iteration does, raise or not, it leaves its item as it
    was or stripped of the nested token. *)
Lemma clean_item_after item :
  item_after (clean_item item) = item \/ item_after (clean_item item) = strip item.
Proof.
  unfold strip, is_note, clean_item.
  destruct item as [| | | |l|d]; simpl; auto.
  destruct (dict.get "modelType" d) as [[| | |s| |]|] eqn:Hm; simpl; auto.
  destruct (String.eqb s "note") eqn:Hs; simpl; auto.
  destruct (dict.get "noteCard" d) as [nc|] eqn:Hnc; simpl; auto.
  destruct (py_contains "user" nc) as [[|]|e] eqn:Hcu; simpl; auto.
  destruct (py_getitem "user" nc) as [u|e] eqn:Hgu; simpl; auto.
  destruct (py_contains "xsecToken" u) as [[|]|e] eqn:Hct; simpl; auto.
  destruct (py_delitem "xsecToken" u) as [u'|e] eqn:Hd; simpl; auto.
  right.
  destruct nc as [| | |s1|l1|nc]; simpl in Hgu; try discriminate.
  destruct (dict.get "user" nc) as [u0|] eqn:Hu; [|discriminate].
  injection Hgu as ->.
  destruct u as [| | |s2|l2|u]; simpl in Hd; try discriminate.
  destruct (dict.mem "xsecToken" u); [|discriminate].
  injection Hd as <-.
  destruct (py_slice10 _); reflexivity.
Qed.

(** The loop prints deletion lines only. *)
Lemma clean_loop_prints_deletions data_array : forall n k,
  ~ In (LSummary k) (printed (clean_loop data_array n)).
Proof.
  induction data_array as [|item rest IH]; intros n k; simpl; [tauto|].
  assert (Hs : ~ In (LSummary k) (step_out (clean_item item))).
  { unfold clean_item.
    repeat match goal with
           | |- context [match ?x with _ => _ end] => destruct x; simpl; try tauto
           end.
    intros [H|[]]; discriminate H. }
  destruct (step_res (clean_item item)); simpl; [|exact Hs].
  rewrite in_app_iff. intros [H|H]; [exact (Hs H) | exact (IH _ _ H)].
Qed.

Lemma clean_loop_app before : forall n rest,
  forallb well_shaped before = true ->
  clean_loop (before ++ rest) n
  = let r := clean_loop rest (n + removed before) in
    Run (map strip before ++ array_after r)
        (printed (clean_loop before n) ++ printed r)
        (outcome r).
Proof.
  unfold removed.
  induction before as [|item before IH]; intros n rest Hw.
  - simpl. rewrite Nat.add_0_r. destruct (clean_loop rest n); reflexivity.
  - simpl in Hw. apply andb_prop in Hw as [Hi Hb].
    destruct (clean_item_returns _ Hi) as [b Hs].
    destruct (clean_item_ok _ _ Hs) as (Ha & Hb' & _).
    cbn [app clean_loop map filter]. rewrite Hs, Ha, (IH _ _ Hb), <- Hb'.
    cbn [array_after printed outcome].
    replace (n + Datatypes.length (if b then item :: filter has_nested_token before
                                   else filter has_nested_token before))
      with ((if b then S n else n) + Datatypes.length (filter has_nested_token before))
      by (destruct b; simpl; lia).
    rewrite app_assoc. reflexivity.
Qed.

(** X1: when an item makes the loop raise, the call raises that error
    with the array half cleaned: the items before it are stripped, the
    items after it are as they were, the item itself is as it was or
    already stripped, and the summary line is never printed. *)
Theorem clean_xsec_tokens_stops_at_error before bad after e :
  forallb well_shaped before = true ->
  step_res (clean_item bad) = Raise e ->
  let r := clean_xsec_tokens (before ++ bad :: after) in
  outcome r = Raise e /\
  array_after r = map strip before ++ item_after (clean_item bad) :: after /\
  (item_after (clean_item bad) = bad \/ item_after (clean_item bad) = strip bad) /\
  (forall k, ~ In (LSummary k) (printed r)).
Proof.
  intros Hw Hbad r.
  assert (Hl : clean_loop (before ++ bad :: after) 0
               = Run (map strip before ++ item_after (clean_item bad) :: after)
                     (printed (clean_loop before 0) ++ step_out (clean_item bad))
                     (Raise e)).
  { rewrite (clean_loop_app _ _ _ Hw). cbn [clean_loop]. rewrite Hbad. reflexivity. }
  unfold r, clean_xsec_tokens. rewrite Hl. cbn [outcome array_after printed].
  repeat split; [apply clean_item_after|].
  intros k Hin. apply (clean_loop_prints_deletions (before ++ bad :: after) 0 k).
  rewrite Hl. exact Hin.
Qed.

Lemma clean_xsec_tokens_stops_at_error_witness :
  let r := clean_xsec_tokens (example_array ++ broken_note :: example_array) in
  outcome r = Raise (TypeError "argument of type 'NoneType' is not iterable") /\
  array_after r = example_cleaned ++ broken_note :: example_array.
Proof.
  destruct (clean_xsec_tokens_stops_at_error example_array broken_note example_array
              (TypeError "argument of type 'NoneType' is not iterable") eq_refl eq_refl)
    as (Ho & Ha & _).
  split; [exact Ho | exact Ha].
Defined.

(** X2: on every input, whether the call returns or raises, the array
    keeps its length and each of its items is either as it was or stripped
    of the nested token: nothing else is ever changed, moved or dropped. *)
Theorem clean_xsec_tokens_touches_only_tokens data_array :
  Forall2 (fun before after => after = before \/ after = strip before)
          data_array (array_after (clean_xsec_tokens data_array)).
Proof.
  assert (Hl : forall n, Forall2 (fun before after => after = before \/ after = strip before)
                                 data_array (array_after (clean_loop data_array n))).
  { induction data_array as [|item rest IH]; intros n; simpl; [constructor|].
    destruct (step_res (clean_item item)); simpl.
    - constructor; [apply clean_item_after | apply IH].
    - constructor; [apply clean_item_after|].
      clear. induction rest; constructor; auto. }
  unfold clean_xsec_tokens. destruct (outcome (clean_loop data_array 0)); apply Hl.
Qed.

(** X3: on an array whose notes have an object (or no) [noteCard] and
    [user] and a string (or no) [id], the sanitizer returns, and returns
    the array with every note stripped. *)
Theorem clean_xsec_tokens_total_on_well_shaped data_array :
  forallb well_shaped data_array = true ->
  clean_xsec_tokens data_array
  = Run (map strip data_array)
        (printed (clean_loop data_array 0) ++ [LSummary (removed data_array)])
        (Ok (JArr (map strip data_array))).
Proof.
  intros Hw.
  pose proof (clean_loop_app data_array 0 [] Hw) as H.
  rewrite !app_nil_r in H. cbn [clean_loop array_after printed outcome] in H.
  unfold clean_xsec_tokens.
  assert (Ho : outcome (clean_loop data_array 0) = Ok (removed data_array)).
  { rewrite H. reflexivity. }
  rewrite Ho. destruct (clean_loop_ok _ _ _ Ho) as (-> & _). reflexivity.
Qed.

Lemma clean_xsec_tokens_total_on_well_shaped_witness :
  outcome (clean_xsec_tokens example_array) = Ok (JArr example_cleaned).
Proof.
  rewrite (clean_xsec_tokens_total_on_well_shaped example_array eq_refl). reflexivity.
Defined.

(** The [if] of the string sanitizer does to the object what an iteration
    of the array sanitizer does to it, wherever that iteration returns. *)
Lemma clean_obj_agrees obj b :
  step_res (clean_item obj) = Ok b ->
  clean_obj obj = Ok (item_after (clean_item obj), b).
Proof.
  unfold clean_item, clean_obj.
  destruct obj as [| | | |l|d]; simpl; try (intros [= <-]; reflexivity).
  destruct (match dict.get "modelType" d with Some v => is_JStr "note" v | None => false end);
    simpl; [|intros [= <-]; reflexivity].
  destruct (dict.get "noteCard" d) as [nc|]; simpl; [|intros [= <-]; reflexivity].
  destruct (py_contains "user" nc) as [[|]|e]; simpl;
    try discriminate; [|intros [= <-]; reflexivity].
  destruct (py_getitem "user" nc) as [u|e]; simpl; try discriminate.
  destruct (py_contains "xsecToken" u) as [[|]|e]; simpl;
    try discriminate; [|intros [= <-]; reflexivity].
  destruct (py_delitem "xsecToken" u) as [u'|e]; simpl; try discriminate.
  destruct (py_slice10 _); simpl; try discriminate.
  intros [= <-]. reflexivity.
Qed.

(** X4: the string sanitizer returns a string that does not decode
    unchanged, with a warning; on a string that decodes to an object the
    array sanitizer passes, it returns the encoding of that object
    stripped of the nested token, and says so exactly when it deleted
    one. *)
Theorem clean_json_string_strips loads dumps json_string :
  (loads json_string = None ->
   clean_json_string loads dumps json_string = ([SUnparsable], Ok json_string)) /\
  (forall obj b,
     loads json_string = Some obj ->
     step_res (clean_item obj) = Ok b ->
     clean_json_string loads dumps json_string
     = (if b then [SDeleted] else [], Ok (dumps (strip obj))) /\
     b = has_nested_token obj).
Proof.
  unfold clean_json_string. split.
  - intros ->. reflexivity.
  - intros obj b -> Hs.
    rewrite (clean_obj_agrees _ _ Hs).
    destruct (clean_item_ok _ _ Hs) as (-> & Hb & _). split; [reflexivity | exact Hb].
Qed.

Lemma clean_json_string_strips_witness :
  clean_json_string toy_loads toy_dumps "not json" = ([SUnparsable], Ok "not json") /\
  clean_json_string toy_loads toy_dumps "note001" = ([SDeleted], Ok "without nested token").
Proof.
  split.
  - apply (proj1 (clean_json_string_strips toy_loads toy_dumps "not json")). reflexivity.
  - apply (proj2 (clean_json_string_strips toy_loads toy_dumps "note001") _ true eq_refl eq_refl).
Defined.

End clean_json_facts.

(** * Further properties of the comment action *)

Module comment_action_facts.
Import comment comment_action comment_facts.

(** X5: what a locator returns is the first match of one of its
    candidates (or, for the submit locator, of its fallback [button]) that
    matched an element and reached its state: a locator never hands out an
    element it did not wait for. *)
Theorem locate_result_is_sound page selectors s :
  (snd (editor_loop page selectors None) = Ok (first s) ->
   In s selectors /\ reaches page visible 30000 s = true) /\
  (snd (submit_loop page selectors) = Ok (first s) ->
   (In s selectors /\ reaches page attached 10000 s = true) \/
   (s = "button" /\ exhausted page attached 10000 selectors /\
    reaches page attached 5000 "button" = true)).
Proof.
  split.
  - rewrite editor_loop_outcome.
    destruct (find (reaches page visible 30000) selectors) as [s'|] eqn:Hf; [|discriminate].
    intros [= ->]. apply find_some in Hf. exact Hf.
  - rewrite submit_loop_outcome.
    destruct (find (reaches page attached 10000) selectors) as [s'|] eqn:Hf.
    + intros [= ->]. left. apply find_some in Hf. exact Hf.
    + unfold fallback_outcome, reaches.
      destruct (Nat.eqb (count page "button") 0); [discriminate|].
      destruct (wait_for page "button" attached 5000); [|discriminate].
      intros [= <-]. right. repeat split. exact Hf.
Qed.

Lemma locate_result_is_sound_witness :
  In "div.input-box div.content-edit span" editor_selectors /\
  reaches flaky_page visible 30000 "div.input-box div.content-edit span" = true.
Proof.
  apply (proj1 (locate_result_is_sound flaky_page editor_selectors
                  "div.input-box div.content-edit span")).
  reflexivity.
Defined.

(** X6: a locator stops at the candidate it returns: the selectors it
    looks up are the candidates up to that one, in list order, each once;
    the candidates listed after it are never looked up. *)
Theorem locate_stops_at_first_reaching (op : locate_op) page before selector after :
  Forall (fun b => reaches page (op_state op) (op_timeout op) b = false) before ->
  reaches page (op_state op) (op_timeout op) selector = true ->
  looked_up (fst (op_loop op page (before ++ selector :: after))) = before ++ [selector].
Proof.
  intros Hb Hs.
  assert (Hp : Nat.eqb (count page selector) 0 = false
               /\ wait_for page selector (op_state op) (op_timeout op) = Reached).
  { unfold reaches in Hs. destruct (Nat.eqb (count page selector) 0); [discriminate|].
    destruct (wait_for page selector (op_state op) (op_timeout op)); [auto | discriminate]. }
  destruct Hp as [Hc Hw].
  destruct op; simpl in *.
  - generalize (@None exn).
    induction Hb as [|b before Hb _ IH]; intros le; cbn [app editor_loop].
    + rewrite Hc, Hw. reflexivity.
    + unfold reaches in Hb.
      destruct (Nat.eqb (count page b) 0).
      * rewrite fst_let. simpl. rewrite IH. reflexivity.
      * destruct (wait_for page b visible 30000); [discriminate|].
        rewrite fst_let. simpl. rewrite IH. reflexivity.
  - induction Hb as [|b before Hb _ IH]; cbn [app submit_loop].
    + rewrite Hc, Hw. reflexivity.
    + unfold reaches in Hb.
      destruct (Nat.eqb (count page b) 0).
      * rewrite fst_let. simpl. rewrite IH. reflexivity.
      * destruct (wait_for page b attached 10000); [discriminate|].
        rewrite fst_let. simpl. rewrite IH. reflexivity.
Qed.

Lemma locate_stops_at_first_reaching_witness :
  looked_up (fst (_locate_editor flaky_page))
  = ["div.input-box div.content-edit p.content-input"; "div.input-box div.content-edit span"].
Proof.
  apply (locate_stops_at_first_reaching locate_editor flaky_page
           ["div.input-box div.content-edit p.content-input"]
           "div.input-box div.content-edit span"
           ["textarea"; "div[contenteditable='true']"]).
  - repeat constructor.
  - reflexivity.
Defined.

Lemma editor_loop_budget page selectors : forall last_error,
  (0 <= wait_budget (fst (editor_loop page selectors last_error))
   <= 30000 * Z.of_nat (List.length selectors))%Z.
Proof.
  induction selectors as [|s rest IH]; intros le.
  - simpl. destruct le; simpl; lia.
  - cbn [editor_loop].
    destruct (Nat.eqb (count page s) 0).
    + rewrite fst_let. cbn [wait_budget]. specialize (IH le). simpl List.length. lia.
    + destruct (wait_for page s visible 30000).
      * simpl wait_budget. simpl List.length. lia.
      * rewrite fst_let. cbn [wait_budget].
        specialize (IH (Some (TimeoutError msg))). simpl List.length. lia.
Qed.

Lemma submit_loop_budget page candidates :
  (0 <= wait_budget (fst (submit_loop page candidates))
   <= 10000 * Z.of_nat (List.length candidates) + 5000)%Z.
Proof.
  induction candidates as [|s rest IH].
  - simpl. destruct (Nat.eqb (count page "button") 0); [simpl; lia|].
    destruct (wait_for page "button" attached 5000); simpl; lia.
  - cbn [submit_loop].
    destruct (Nat.eqb (count page s) 0).
    + rewrite fst_let. cbn [wait_budget]. simpl List.length. lia.
    + destruct (wait_for page s attached 10000).
      * simpl wait_budget. simpl List.length. lia.
      * rewrite fst_let. cbn [wait_budget]. simpl List.length. lia.
Qed.

(** X7: the time a locator may spend waiting is bounded by its list: at
    most 30 s per editor candidate, 120 s for [_locate_editor]; at most
    10 s per submit candidate and 5 s for the fallback, 35 s for
    [_locate_submit]. *)
Theorem locate_wait_is_bounded page :
  (forall selectors last_error,
      (wait_budget (fst (editor_loop page selectors last_error))
       <= 30000 * Z.of_nat (List.length selectors))%Z) /\
  (forall candidates,
      (wait_budget (fst (submit_loop page candidates))
       <= 10000 * Z.of_nat (List.length candidates) + 5000)%Z) /\
  (wait_budget (fst (_locate_editor page)) <= 120000)%Z /\
  (wait_budget (fst (_locate_submit page)) <= 35000)%Z.
Proof.
  repeat split.
  - intros. apply editor_loop_budget.
  - intros. apply submit_loop_budget.
  - apply (editor_loop_budget page editor_selectors None).
  - apply (submit_loop_budget page submit_candidates).
Qed.

Lemma existsb_map_Lookup (P : action -> bool) calls :
  (forall c, P (Lookup c) = false) -> existsb P (map Lookup calls) = false.
Proof. intros H. induction calls as [|c l IH]; simpl; [reflexivity|]. rewrite H. exact IH. Qed.

(** X8: a [post_comment] that returns has done exactly this, in this
    order: loaded the note, located the editor, clicked it, emptied it,
    typed the comment into it, located the submit button, clicked it, and
    waited a second. *)
Theorem post_comment_success_log s feed_id xsec_token content :
  snd (post_comment s feed_id xsec_token content) = Ok tt ->
  exists editor submit,
    snd (_locate_editor (editor_view s)) = Ok editor /\
    snd (_locate_submit (submit_view s)) = Ok submit /\
    fst (post_comment s feed_id xsec_token content)
    = [Goto (note_url feed_id xsec_token) "domcontentloaded";
       WaitForLoadState "networkidle"; WaitForTimeout 2000]
      ++ map Lookup (fst (_locate_editor (editor_view s)))
      ++ [Click editor; Fill editor ""; TypeText editor content]
      ++ map Lookup (fst (_locate_submit (submit_view s)))
      ++ [Click submit; WaitForTimeout 1000].
Proof.
  unfold post_comment, located, then_.
  destruct (goto_out s _); [discriminate|].
  destruct (load_state_out s); [discriminate|].
  destruct (timeout_out s 2000); [discriminate|].
  cbn [fst snd].
  destruct (snd (_locate_editor (editor_view s))) as [editor|e]; [|discriminate].
  destruct (click_out s editor); [discriminate|].
  destruct (fill_out s editor ""); [discriminate|].
  destruct (type_out s editor content); [discriminate|].
  cbn [fst snd].
  destruct (snd (_locate_submit (submit_view s))) as [submit|e]; [|discriminate].
  destruct (click_out s submit); [discriminate|].
  destruct (timeout_out s 1000); [discriminate|].
  intros _. exists editor, submit. split; [reflexivity|]. split; [reflexivity|].
  cbn [fst snd app]. rewrite <- ?app_assoc. reflexivity.
Qed.

Lemma post_comment_success_log_witness :
  exists editor submit,
    snd (_locate_editor flaky_page) = Ok editor /\
    snd (_locate_submit flaky_page) = Ok submit /\
    fst (post_comment (calm_session flaky_page flaky_page) "64f0" "tok" "nice")
    = [Goto (note_url "64f0" "tok") "domcontentloaded";
       WaitForLoadState "networkidle"; WaitForTimeout 2000]
      ++ map Lookup (fst (_locate_editor flaky_page))
      ++ [Click editor; Fill editor ""; TypeText editor "nice"]
      ++ map Lookup (fst (_locate_submit flaky_page))
      ++ [Click submit; WaitForTimeout 1000].
Proof.
  apply (post_comment_success_log (calm_session flaky_page flaky_page) "64f0" "tok" "nice").
  reflexivity.
Defined.

(** X9: when the editor cannot be located, [post_comment] raises without
    having clicked or typed anything. *)
Theorem post_comment_without_editor_touches_nothing s feed_id xsec_token content :
  is_ok (snd (_locate_editor (editor_view s))) = false ->
  is_ok (snd (post_comment s feed_id xsec_token content)) = false /\
  existsb touches (fst (post_comment s feed_id xsec_token content)) = false.
Proof.
  unfold post_comment, located, then_.
  destruct (snd (_locate_editor (editor_view s))) as [editor|e]; [discriminate|].
  intros _.
  destruct (goto_out s _); [split; reflexivity|].
  destruct (load_state_out s); [split; reflexivity|].
  destruct (timeout_out s 2000); [split; reflexivity|].
  cbn [fst snd existsb touches orb]. split; [reflexivity|].
  apply existsb_map_Lookup. reflexivity.
Qed.

Lemma post_comment_without_editor_touches_nothing_witness :
  is_ok (snd (post_comment (calm_session blank_page blank_page) "64f0" "tok" "nice")) = false /\
  existsb touches (fst (post_comment (calm_session blank_page blank_page) "64f0" "tok" "nice"))
  = false.
Proof.
  apply (post_comment_without_editor_touches_nothing
           (calm_session blank_page blank_page) "64f0" "tok" "nice").
  reflexivity.
Defined.

(** X10: when every call returns and the editor is found but the submit
    button is not, [post_comment] raises the submit locator's error after
    the comment has been typed: the text is left in the editor, and the
    only click made is the one on the editor. *)
Theorem post_comment_without_submit_leaves_text editor_view submit_view
    feed_id xsec_token content editor e :
  snd (_locate_editor editor_view) = Ok editor ->
  snd (_locate_submit submit_view) = Raise e ->
  post_comment (calm_session editor_view submit_view) feed_id xsec_token content
  = ([Goto (note_url feed_id xsec_token) "domcontentloaded";
      WaitForLoadState "networkidle"; WaitForTimeout 2000]
     ++ map Lookup (fst (_locate_editor editor_view))
     ++ [Click editor; Fill editor ""; TypeText editor content]
     ++ map Lookup (fst (_locate_submit submit_view)),
     Raise e).
Proof.
  intros He Hs. unfold post_comment, located, then_. cbn [calm_session
    comment_action.editor_view comment_action.submit_view goto_out load_state_out
    timeout_out click_out fill_out type_out].
  rewrite He. cbn [fst snd]. rewrite Hs. cbn [fst snd app].
  rewrite <- ?app_assoc. reflexivity.
Qed.

Lemma post_comment_without_submit_leaves_text_witness :
  snd (post_comment (calm_session flaky_page no_button_page) "64f0" "tok" "nice")
  = Raise (TimeoutError "Comment submit button not found").
Proof.
  rewrite (post_comment_without_submit_leaves_text flaky_page no_button_page "64f0" "tok" "nice"
             (first "div.input-box div.content-edit span")
             (TimeoutError "Comment submit button not found") eq_refl eq_refl).
  reflexivity.
Defined.

End comment_action_facts.

(** * Further properties of the server: defaults, tags, the wrapper's log *)

Module server_config_facts.
Import mcp_server server_config.

(** X11: two calls of [configure_defaults] amount to one call in which
    the later call's arguments take precedence; a call without arguments
    changes nothing; and no call clears a default that is set. *)
Theorem configure_defaults_later_wins w DEFAULTS p1 c1 b1 d1 t1 p2 c2 b2 d2 t2 :
  configure_defaults w (configure_defaults w DEFAULTS p1 c1 b1 d1 t1) p2 c2 b2 d2 t2
  = configure_defaults w DEFAULTS (or_else p2 p1) (or_else c2 c1) (or_else b2 b1)
                       (or_else d2 d1) (or_else t2 t1) /\
  configure_defaults w DEFAULTS None None None None None = DEFAULTS /\
  (d_profile DEFAULTS <> None ->
   d_profile (configure_defaults w DEFAULTS p1 c1 b1 d1 t1) <> None) /\
  (d_cookies_path DEFAULTS <> None ->
   d_cookies_path (configure_defaults w DEFAULTS p1 c1 b1 d1 t1) <> None) /\
  (d_chrome_bin DEFAULTS <> None ->
   d_chrome_bin (configure_defaults w DEFAULTS p1 c1 b1 d1 t1) <> None) /\
  (d_debug_dir DEFAULTS <> None ->
   d_debug_dir (configure_defaults w DEFAULTS p1 c1 b1 d1 t1) <> None).
Proof.
  repeat split.
  - unfold configure_defaults.
    destruct p1, c1, b1, d1, t1, p2, c2, b2, d2, t2; reflexivity.
  - destruct DEFAULTS; reflexivity.
  - destruct p1; simpl; [discriminate | auto].
  - destruct c1; simpl; [discriminate | auto].
  - destruct b1; simpl; [discriminate | auto].
  - destruct d1 as [[|]|]; simpl; [discriminate | discriminate | auto].
Qed.

Lemma configure_defaults_later_wins_witness :
  d_profile (configure_defaults (quiet_world idle_page)
               (configure_defaults (quiet_world idle_page) initial_defaults
                  (Some "alice") None None None None)
               None None None (Some (DirStr "debug")) None)
  <> None.
Proof.
  apply (proj1 (proj2 (proj2 (configure_defaults_later_wins (quiet_world idle_page)
           (configure_defaults (quiet_world idle_page) initial_defaults
              (Some "alice") None None None None)
           None None None (Some (DirStr "debug")) None None None None None None)))).
  discriminate.
Defined.

(** X12: once [serve] has set the defaults from the command line, a tool
    resolves each of its five settings to its own argument where one is
    given and to the command line's value otherwise; the directory, from
    either, is resolved to an absolute path, and the trace flag of the
    command line always counts. *)
Theorem tool_arguments_after_serve w p c b d t p' c' b' d' t' :
  _resolve_invocation_args w (serve_defaults w initial_defaults p c b d t) p' c' b' d' t'
  = (or_else p' p, or_else c' c, or_else b' b,
     or_else (option_map (resolve_path w) d') (option_map (resolve_path w) d),
     match t' with Some x => x | None => t end).
Proof.
  unfold _resolve_invocation_args, serve_defaults, configure_defaults.
  destruct p, c, b, d, t, p', c', b', d', t'; reflexivity.
Qed.

End server_config_facts.

Module tools_facts.
Import mcp_server tools mcp_server_facts.

(** *** Tags *)

Lemma lstrip_hash_no_hash tag : starts_with_hash (lstrip_hash tag) = false.
Proof.
  induction tag as [|c rest IH]; [reflexivity|].
  simpl. destruct (Ascii.eqb c "#") eqn:E; [exact IH|]. simpl. exact E.
Qed.

Lemma lstrip_hash_id tag : starts_with_hash tag = false -> lstrip_hash tag = tag.
Proof. destruct tag as [|c rest]; simpl; [reflexivity|]. intros ->. reflexivity. Qed.

Lemma lstrip_hash_empty tag : lstrip_hash tag = "" <-> only_hashes tag = true.
Proof.
  induction tag as [|c rest IH]; simpl; [tauto|].
  destruct (Ascii.eqb c "#"); simpl; [exact IH|].
  split; discriminate.
Qed.

Lemma normalize_tags_map tags :
  _normalize_tags (Some tags) = map lstrip_hash (filter nonempty tags).
Proof. destruct tags; reflexivity. Qed.

(** X13: no tag that [_normalize_tags] returns begins with [#]; and a
    list of non-empty tags none of which begins with [#] is returned as it
    is. *)
Theorem normalize_tags_strips_hashes tags :
  Forall (fun tag => starts_with_hash tag = false) (_normalize_tags tags) /\
  (forall given,
     tags = Some given ->
     Forall (fun tag => nonempty tag = true /\ starts_with_hash tag = false) given ->
     _normalize_tags tags = given).
Proof.
  split.
  - destruct tags as [given|]; [|constructor].
    rewrite normalize_tags_map. apply Forall_map, Forall_forall.
    intros tag _. apply lstrip_hash_no_hash.
  - intros given -> H. rewrite normalize_tags_map.
    induction H as [|tag rest [Hn Hh] _ IH]; [reflexivity|].
    simpl. rewrite Hn. simpl. rewrite (lstrip_hash_id _ Hh), IH. reflexivity.
Qed.

Lemma normalize_tags_strips_hashes_witness :
  _normalize_tags (Some ["travel"; "food"]) = ["travel"; "food"].
Proof.
  apply (proj2 (normalize_tags_strips_hashes (Some ["travel"; "food"])) _ eq_refl).
  repeat constructor.
Defined.

(** X14: empty tags are dropped before the [#] signs are stripped, not
    after: the result holds an empty tag exactly when one of the given
    tags is made of [#] signs only. *)
Theorem normalize_tags_keeps_bare_hashes given :
  In "" (_normalize_tags (Some given)) <->
  exists tag, In tag given /\ tag <> "" /\ only_hashes tag = true.
Proof.
  rewrite normalize_tags_map, in_map_iff. split.
  - intros (tag & He & Hin). apply filter_In in Hin as [Hin Hn].
    exists tag. repeat split; [exact Hin | | apply lstrip_hash_empty, He].
    intros ->. discriminate Hn.
  - intros (tag & Hin & Hne & Ho). exists tag. split; [apply lstrip_hash_empty, Ho|].
    apply filter_In. split; [exact Hin|]. destruct tag; [contradiction | reflexivity].
Qed.

Lemma normalize_tags_keeps_bare_hashes_witness :
  In "" (_normalize_tags (Some ["#travel"; "##"])).
Proof.
  apply (proj2 (normalize_tags_keeps_bare_hashes ["#travel"; "##"])).
  exists "##". repeat split; [right; left; reflexivity | discriminate].
Defined.

(** *** The log and the outcome of the wrapper *)

Lemma with_log {B} o o' out out' (body : unit -> M B) :
  fst (with_ (Manager (do_ o out) (do_ o' out')) body)
  = match out with
    | Some e => [Failed o e]
    | None => Did o :: fst (body tt) ++ [released o' out']
    end.
Proof. destruct out; [reflexivity | apply fst_with_acquired]. Qed.

Lemma with_outcome {B} o o' out out' (body : unit -> M B) :
  snd (with_ (Manager (do_ o out) (do_ o' out')) body)
  = match out with
    | Some e => Raise e
    | None => match out' with Some e' => Raise e' | None => snd (body tt) end
    end.
Proof. destruct out; [reflexivity | apply snd_with_acquired]. Qed.

Lemma all_with P {A B} (m : manager A) (body : A -> M B) :
  all P (enter m) -> all P (exit m) -> (forall x, all P (body x)) -> all P (with_ m body).
Proof.
  intros He Hx Hb. unfold with_. apply all_bind; [exact He|].
  intros x. apply all_try_finally; [apply Hb | exact Hx].
Qed.

Lemma all_run_handler P {T} (h : list hevent * result T) :
  (forall e, P (Did (InHandler e)) = true) -> all P (run_handler h).
Proof.
  intros H. unfold all, run_handler. simpl.
  induction (fst h) as [|e l IH]; [reflexivity|]. simpl. rewrite H. exact IH.
Qed.

Lemma is_ok_bind {A B} (m : M A) (f : A -> M B) :
  is_ok (snd m) = false -> is_ok (snd (bind m f)) = false.
Proof. rewrite snd_bind. destruct (snd m); [discriminate | reflexivity]. Qed.

(** The body of the session when the handler is reached. *)
Lemma session_body_reached {T} w cookies_file (debug_dir : option Path) (trace : bool)
    (handler : handler_type T) p :
  match debug_dir with
  | Some _ => (if trace then is_none (tracing_start w) else true) && is_none (page_on w)
  | None => true
  end = true ->
  new_page w = Ok p ->
  let h := handler {| page := p |} cookies_file in
  let logs := match debug_dir with Some _ => console_lines (fst h) | None => [] end in
  session_body w cookies_file debug_dir trace handler
  = (prelude debug_dir trace ++ map (fun e => Did (InHandler e)) (fst h)
       ++ fst (teardown w debug_dir trace logs),
     match snd (teardown w debug_dir trace logs) with
     | Raise e => Raise e
     | Ok _ => snd h
     end).
Proof.
  intros Hpre Hp h logs. unfold session_body. rewrite Hp. fold h.
  destruct debug_dir as [d|]; [destruct trace|].
  - destruct (tracing_start w); [discriminate Hpre|].
    destruct (page_on w); [discriminate Hpre|].
    apply injective_projections;
      repeat (rewrite ?fst_bind, ?snd_bind; cbn [fst snd do_ call ret app]);
      rewrite ?fst_try_finally, ?snd_try_finally; reflexivity.
  - destruct (page_on w); [discriminate Hpre|].
    apply injective_projections;
      repeat (rewrite ?fst_bind, ?snd_bind; cbn [fst snd do_ call ret app]);
      rewrite ?fst_try_finally, ?snd_try_finally; reflexivity.
  - apply injective_projections;
      repeat (rewrite ?fst_bind, ?snd_bind; cbn [fst snd do_ call ret app]);
      rewrite ?fst_try_finally, ?snd_try_finally; reflexivity.
Qed.

(** The body of the session when a call before the handler raises. *)
Lemma session_body_unreached {T} w cookies_file (debug_dir : option Path) (trace : bool)
    (handler : handler_type T) :
  match debug_dir with
  | Some _ => (if trace then is_none (tracing_start w) else true) && is_none (page_on w)
  | None => true
  end && is_ok (new_page w) = false ->
  forallb is_plain (fst (session_body w cookies_file debug_dir trace handler)) = true /\
  is_ok (snd (session_body w cookies_file debug_dir trace handler)) = false.
Proof.
  unfold session_body.
  destruct debug_dir as [d|]; [destruct trace|];
    destruct (tracing_start w), (new_page w), (page_on w);
    simpl; try discriminate; intros _; split; reflexivity.
Qed.

(** The whole call when the handler is reached. *)
Lemma run_reached {T} w profile cookies_path chrome_bin (debug_dir : option Path) (trace : bool)
    (handler : handler_type T) p exe :
  handler_reached w chrome_bin debug_dir trace = true ->
  new_page w = Ok p ->
  get_chrome_executable w chrome_bin = Ok exe ->
  let cookies_file := get_cookies_path w cookies_path profile in
  let h := handler {| page := p |} cookies_file in
  let logs := match debug_dir with Some _ => console_lines (fst h) | None => [] end in
  _run_with_page_sync w profile cookies_path chrome_bin debug_dir trace handler
  = ([Did PwStart; Did (Launch exe); Did (NewContext cookies_file)]
       ++ prelude debug_dir trace
       ++ map (fun e => Did (InHandler e)) (fst h)
       ++ fst (teardown w debug_dir trace logs)
       ++ [released ContextClose (context_close w);
           released BrowserClose (browser_close w);
           released PwStop (pw_stop w)],
     match pw_stop w, browser_close w, context_close w with
     | Some e, _, _ => Raise e
     | None, Some e, _ => Raise e
     | None, None, Some e => Raise e
     | None, None, None =>
         match snd (teardown w debug_dir trace logs) with
         | Raise e => Raise e
         | Ok _ => snd h
         end
     end).
Proof.
  intros Hr Hp Hexe cookies_file h logs.
  unfold handler_reached in Hr. rewrite Hexe, Hp in Hr.
  unfold _run_with_page_sync, pw, launch, new_context. rewrite Hexe.
  destruct (pw_start w); [discriminate Hr|].
  destruct (browser_launch w); [discriminate Hr|].
  destruct (context_new w); [discriminate Hr|].
  simpl in Hr. rewrite andb_true_r in Hr.
  apply injective_projections; cbn [fst snd].
  - rewrite !fst_with_acquired.
    rewrite (session_body_reached w _ debug_dir trace handler p Hr Hp). cbn [fst].
    fold cookies_file h logs. simpl. rewrite <- !app_assoc. reflexivity.
  - rewrite !snd_with_acquired.
    rewrite (session_body_reached w _ debug_dir trace handler p Hr Hp). cbn [snd].
    fold cookies_file h logs.
    destruct (pw_stop w), (browser_close w), (context_close w); reflexivity.
Qed.

Lemma is_plain_released o out :
  releases o <> None -> is_plain (released o out) = true.
Proof. destruct out, o; simpl; intros H; try reflexivity; destruct (H eq_refl). Qed.

(** The whole call when a call before the handler raises: the handler
    does not run, nothing is captured, and the call raises. *)
Lemma run_unreached {T} w profile cookies_path chrome_bin (debug_dir : option Path)
    (trace : bool) (handler : handler_type T) :
  handler_reached w chrome_bin debug_dir trace = false ->
  let run := _run_with_page_sync w profile cookies_path chrome_bin debug_dir trace handler in
  forallb is_plain (fst run) = true /\ is_ok (snd run) = false.
Proof.
  intros Hr run. unfold run, _run_with_page_sync, pw, launch, new_context.
  unfold handler_reached in Hr.
  destruct (get_chrome_executable w chrome_bin); [|split; reflexivity].
  destruct (pw_start w); [split; reflexivity|].
  destruct (browser_launch w).
  { rewrite with_log, with_outcome. cbn [with_ enter exit bind do_ call fst snd app].
    split; [|destruct (pw_stop w); reflexivity].
    simpl. rewrite is_plain_released by discriminate. reflexivity. }
  destruct (context_new w).
  { rewrite !with_log, !with_outcome. cbn [with_ enter exit bind do_ call fst snd app].
    split; [|destruct (pw_stop w), (browser_close w); reflexivity].
    simpl. rewrite !is_plain_released by discriminate. reflexivity. }
  simpl in Hr.
  destruct (session_body_unreached w (get_cookies_path w cookies_path profile)
              debug_dir trace handler Hr) as [Hlog Hout].
  rewrite !with_log, !with_outcome. split.
  - repeat (cbn [forallb]; rewrite ?forallb_app).
    rewrite Hlog, !is_plain_released by discriminate. reflexivity.
  - destruct (pw_stop w), (browser_close w), (context_close w); try reflexivity.
    exact Hout.
Qed.

Lemma existsb_forallb_false {A} (P Q : A -> bool) l :
  (forall x, Q x = true -> P x = false) -> forallb Q l = true -> existsb P l = false.
Proof.
  intros H. induction l as [|x l IH]; simpl; [reflexivity|].
  intros Hq. apply andb_prop in Hq as [Hx Hl]. rewrite (H _ Hx), (IH Hl). reflexivity.
Qed.

Lemma handler_events_plain t : forallb is_plain t = true -> handler_events t = [].
Proof.
  intros H. apply handler_events_outside.
  induction t as [|ev t IH]; [reflexivity|].
  simpl in *. apply andb_prop in H as [Hev Ht]. unfold is_plain in Hev.
  apply andb_prop in Hev as [Ho _]. rewrite Ho, (IH Ht). reflexivity.
Qed.

Lemma handler_events_map hs :
  handler_events (map (fun e => Did (InHandler e)) hs) = hs.
Proof. induction hs as [|e l IH]; [reflexivity|]. simpl. rewrite IH. reflexivity. Qed.

Lemma handler_events_released_cons o out t :
  (forall h, o <> InHandler h) -> handler_events (released o out :: t) = handler_events t.
Proof. intros H. destruct out, o; try reflexivity; destruct (H h eq_refl). Qed.

Lemma handler_events_prelude debug_dir trace : handler_events (prelude debug_dir trace) = [].
Proof. destruct debug_dir, trace; reflexivity. Qed.

Lemma reached_has_page w chrome_bin debug_dir trace :
  handler_reached w chrome_bin debug_dir trace = true ->
  exists p exe, new_page w = Ok p /\ get_chrome_executable w chrome_bin = Ok exe.
Proof.
  unfold handler_reached.
  destruct (get_chrome_executable w chrome_bin) as [exe|]; [|discriminate].
  destruct (new_page w) as [p|]; [|rewrite andb_false_r; discriminate].
  intros _. exists p, exe. split; reflexivity.
Qed.

(** X15: the handler runs exactly when every call before it returns, and
    then it runs once, on the session's page and the resolved cookies
    path; when one of those calls raises, the handler does not run and the
    call raises. *)
Theorem handler_runs_exactly_when_reached {T} w profile cookies_path chrome_bin
    (debug_dir : option Path) (trace : bool) (handler : handler_type T) :
  let run := _run_with_page_sync w profile cookies_path chrome_bin debug_dir trace handler in
  (handler_reached w chrome_bin debug_dir trace = false ->
   handler_events (fst run) = [] /\ is_ok (snd run) = false) /\
  (forall p,
     handler_reached w chrome_bin debug_dir trace = true ->
     new_page w = Ok p ->
     handler_events (fst run)
     = fst (handler {| page := p |} (get_cookies_path w cookies_path profile))).
Proof.
  intros run. split.
  - intros Hr. destruct (run_unreached w profile cookies_path chrome_bin debug_dir trace
                           handler Hr) as [Hlog Hout].
    split; [apply handler_events_plain, Hlog | exact Hout].
  - intros p Hr Hp. destruct (reached_has_page _ _ _ _ Hr) as (p' & exe & _ & Hexe).
    unfold run. rewrite (run_reached w profile cookies_path chrome_bin debug_dir trace
                           handler p exe Hr Hp Hexe).
    cbn [fst app handler_events].
    rewrite !handler_events_app, handler_events_prelude, handler_events_map,
      (handler_events_outside _ (teardown_outside_handler _ _ _ _)).
    rewrite !handler_events_released_cons by discriminate.
    simpl. rewrite !app_nil_r. reflexivity.
Qed.

Lemma handler_runs_exactly_when_reached_witness :
  handler_events
    (fst (_run_with_page_sync (no_browser_world idle_page) None None None
                              (Some "debug") true failing_handler))
  = [] /\
  handler_events
    (fst (_run_with_page_sync (closed_page_world idle_page) None None None
                              (Some "debug") true failing_handler))
  = [Act "goto"; ConsoleMsg "error" "net::ERR_FAILED"].
Proof.
  split.
  - apply (proj1 (handler_runs_exactly_when_reached (no_browser_world idle_page)
                    None None None (Some "debug") true failing_handler)).
    reflexivity.
  - apply (proj2 (handler_runs_exactly_when_reached (closed_page_world idle_page)
                    None None None (Some "debug") true failing_handler) idle_page);
      reflexivity.
Defined.

(** *** Diagnostics *)

Lemma teardown_head w d trace console_logs :
  exists rest,
    fst (teardown w (Some d) trace console_logs) = released (Mkdir d) (mkdir w) :: rest.
Proof.
  unfold teardown, capture_diagnostics. rewrite !fst_bind, fst_do. simpl.
  eexists. reflexivity.
Qed.

Lemma existsb_handler_steps (P : event -> bool) hs :
  (forall e, P (Did (InHandler e)) = false) ->
  existsb P (map (fun e => Did (InHandler e)) hs) = false.
Proof. intros H. induction hs as [|e l IH]; simpl; [reflexivity|]. rewrite H. exact IH. Qed.

Lemma is_diagnostic_released o out :
  releases o <> None -> is_diagnostic (released o out) = false.
Proof. destruct out, o; simpl; intros H; try reflexivity; destruct (H eq_refl). Qed.

(** X16: the diagnostics are captured exactly when a diagnostics
    directory is set and the handler was reached: without a directory
    nothing is captured, and when a call before the handler raises nothing
    is captured either, directory or not. *)
Theorem diagnostics_exactly_when_reached {T} w profile cookies_path chrome_bin
    (debug_dir : option Path) (trace : bool) (handler : handler_type T) :
  existsb is_diagnostic
    (fst (_run_with_page_sync w profile cookies_path chrome_bin debug_dir trace handler))
  = match debug_dir with
    | Some _ => handler_reached w chrome_bin debug_dir trace
    | None => false
    end.
Proof.
  destruct (handler_reached w chrome_bin debug_dir trace) eqn:Hr.
  - destruct (reached_has_page _ _ _ _ Hr) as (p & exe & Hp & Hexe).
    rewrite (run_reached w profile cookies_path chrome_bin debug_dir trace
               handler p exe Hr Hp Hexe).
    cbn [fst app existsb is_diagnostic orb].
    rewrite !existsb_app, existsb_handler_steps by reflexivity.
    destruct debug_dir as [d|].
    + destruct (teardown_head w d trace
                  (console_lines (fst (handler {| page := p |}
                                         (get_cookies_path w cookies_path profile)))))
        as [rest ->].
      assert (Hm : is_diagnostic (released (Mkdir d) (mkdir w)) = true)
        by (destruct (mkdir w); reflexivity).
      simpl existsb at 2. rewrite Hm. rewrite !orb_true_r. reflexivity.
    + simpl. rewrite !is_diagnostic_released by discriminate. reflexivity.
  - destruct (run_unreached w profile cookies_path chrome_bin debug_dir trace handler Hr)
      as [Hlog _].
    rewrite (existsb_forallb_false is_diagnostic is_plain _) ; [destruct debug_dir; reflexivity| |exact Hlog].
    intros ev Hev. unfold is_plain in Hev. apply andb_prop in Hev as [_ Hd].
    destruct (is_diagnostic ev); [discriminate | reflexivity].
Qed.

Lemma all_not_debug_none {T} w profile cookies_path chrome_bin trace (handler : handler_type T) :
  all (fun ev => negb (is_debug_call ev))
      (_run_with_page_sync w profile cookies_path chrome_bin None trace handler).
Proof.
  unfold _run_with_page_sync.
  destruct (get_chrome_executable w chrome_bin); [|reflexivity].
  repeat (apply all_with;
          [apply all_do; [reflexivity | intros; reflexivity]
          |apply all_do; [reflexivity | intros; reflexivity]
          |intros _]).
  unfold session_body, teardown.
  repeat first
    [ apply all_ret
    | apply all_bind; [|intros ?]
    | apply all_call; [reflexivity | intros; reflexivity]
    | apply all_try_finally
    | apply all_run_handler; intros; reflexivity ].
Qed.

(** X17: without a diagnostics directory the trace flag has no effect:
    the call is the same with and without it, and it neither starts nor
    stops the tracing, attaches no console collector and writes no file. *)
Theorem trace_needs_a_directory {T} w profile cookies_path chrome_bin trace
    (handler : handler_type T) :
  _run_with_page_sync w profile cookies_path chrome_bin None trace handler
  = _run_with_page_sync w profile cookies_path chrome_bin None false handler /\
  existsb is_debug_call
    (fst (_run_with_page_sync w profile cookies_path chrome_bin None trace handler)) = false.
Proof.
  split; [reflexivity|].
  apply (existsb_forallb_false is_debug_call (fun ev => negb (is_debug_call ev))).
  - intros ev Hev. destruct (is_debug_call ev); [discriminate | reflexivity].
  - apply all_not_debug_none.
Qed.

(** X18: once the handler is reached and the three releases return, the
    call's outcome is the teardown's error if the teardown raises, even
    when the handler had returned a value, and the handler's own outcome,
    value or error, otherwise. *)
Theorem teardown_error_masks_any_outcome {T} w profile cookies_path chrome_bin
    (debug_dir : option Path) (trace : bool) (handler : handler_type T) p :
  handler_reached w chrome_bin debug_dir trace = true ->
  new_page w = Ok p ->
  context_close w = None -> browser_close w = None -> pw_stop w = None ->
  let h := handler {| page := p |} (get_cookies_path w cookies_path profile) in
  let logs := match debug_dir with Some _ => console_lines (fst h) | None => [] end in
  snd (_run_with_page_sync w profile cookies_path chrome_bin debug_dir trace handler)
  = match snd (teardown w debug_dir trace logs) with
    | Raise e => Raise e
    | Ok _ => snd h
    end.
Proof.
  intros Hr Hp Hc Hb Hs h logs.
  destruct (reached_has_page _ _ _ _ Hr) as (p' & exe & _ & Hexe).
  rewrite (run_reached w profile cookies_path chrome_bin debug_dir trace
             handler p exe Hr Hp Hexe).
  cbn [snd]. rewrite Hc, Hb, Hs. reflexivity.
Qed.

Lemma teardown_error_masks_any_outcome_witness :
  snd (_run_with_page_sync (closed_page_world scanned_page) None None None
                           (Some "debug") false (login_handler 240 500))
  = Raise (Exn "Error" "Page.content: Target page, context or browser has been closed").
Proof.
  rewrite (teardown_error_masks_any_outcome (closed_page_world scanned_page) None None None
             (Some "debug") false (login_handler 240 500) scanned_page
             eq_refl eq_refl eq_refl eq_refl eq_refl).
  reflexivity.
Defined.

Lemma capture_has_no_tracing_stop w d console_logs :
  existsb is_tracing_stop (fst (capture_diagnostics w d console_logs)) = false.
Proof.
  apply (existsb_forallb_false is_tracing_stop (fun ev => negb (is_tracing_stop ev))).
  - intros ev Hev. destruct (is_tracing_stop ev); [discriminate | reflexivity].
  - unfold capture_diagnostics.
    repeat first
      [ apply all_ret
      | apply all_bind; [|intros ?]
      | apply all_try_except; [|intros ?]
      | apply all_do; [reflexivity | intros; reflexivity]
      | apply all_call; [reflexivity | intros; reflexivity] ].
Qed.

(** X19: with tracing on, the trace archive is asked for exactly when the
    diagnostics capture returned: if writing the document text, the error
    note or the console log raises, the tracing is never stopped and no
    [trace.zip] is written. *)
Theorem trace_archive_needs_capture {T} w profile cookies_path chrome_bin d
    (handler : handler_type T) p :
  handler_reached w chrome_bin (Some d) true = true ->
  new_page w = Ok p ->
  let h := handler {| page := p |} (get_cookies_path w cookies_path profile) in
  existsb is_tracing_stop
    (fst (_run_with_page_sync w profile cookies_path chrome_bin (Some d) true handler))
  = is_ok (snd (capture_diagnostics w d (console_lines (fst h)))).
Proof.
  intros Hr Hp h.
  destruct (reached_has_page _ _ _ _ Hr) as (p' & exe & _ & Hexe).
  rewrite (run_reached w profile cookies_path chrome_bin (Some d) true
             handler p exe Hr Hp Hexe).
  fold h. cbn [fst app existsb is_tracing_stop orb prelude].
  rewrite !existsb_app, existsb_handler_steps by reflexivity.
  unfold teardown. rewrite fst_bind, existsb_app, capture_has_no_tracing_stop.
  assert (Hrel : forall o out, (forall path, o <> TracingStop path) ->
                               is_tracing_stop (released o out) = false).
  { intros o out H. destruct out, o; try reflexivity; destruct (H path eq_refl). }
  cbn [existsb]. rewrite !Hrel by discriminate. cbn [orb].
  destruct (snd (capture_diagnostics w d (console_lines (fst h)))); cbn [is_ok].
  - rewrite fst_do. destruct (tracing_stop w); reflexivity.
  - reflexivity.
Qed.

Lemma trace_archive_needs_capture_witness :
  existsb is_tracing_stop
    (fst (_run_with_page_sync (closed_page_world idle_page) None None None
                              (Some "debug") true failing_handler))
  = false.
Proof.
  exact (trace_archive_needs_capture (closed_page_world idle_page) None None None
           "debug" failing_handler idle_page eq_refl eq_refl).
Defined.

(** X20: when the screenshot raises, the capture goes on: the error's
    text is written to [screenshot-error.log] instead of [page.png], and
    the console log is written after it; the capture raises only if one of
    those two writes does. *)
Theorem screenshot_failure_writes_note w d console_logs dom exc :
  mkdir w = None -> page_content w = Ok dom -> write_dom w = None ->
  screenshot w = Some exc ->
  capture_diagnostics w d console_logs
  = ([Did (Mkdir d); Did PageContent; Did (WriteText (d // "dom.html") dom);
      Failed (Screenshot (d // "page.png")) exc;
      released (WriteText (d // "screenshot-error.log") (exn_msg exc))
               (write_screenshot_error w)]
     ++ match write_screenshot_error w with
        | Some _ => []
        | None => [released (WriteText (d // "console.log")
                                       (String.concat newline console_logs))
                            (write_console w)]
        end,
     match write_screenshot_error w, write_console w with
     | Some e, _ => Raise e
     | None, Some e => Raise e
     | None, None => Ok tt
     end).
Proof.
  intros Hm Hc Hd Hs. unfold capture_diagnostics. rewrite Hm, Hc, Hd, Hs.
  destruct (write_screenshot_error w), (write_console w); reflexivity.
Qed.

Lemma screenshot_failure_writes_note_witness :
  snd (capture_diagnostics (no_screenshot_world idle_page) "debug" ["[log] ready"]) = Ok tt.
Proof.
  rewrite (screenshot_failure_writes_note (no_screenshot_world idle_page) "debug"
             ["[log] ready"] "<html></html>"
             (Exn "Error" "Page.screenshot: Protocol error")
             eq_refl eq_refl eq_refl eq_refl).
  reflexivity.
Defined.

(** X21: when the browser cannot be launched, the driver is stopped and
    nothing else is called; when the context cannot be created, the
    browser is released, then the driver. Either way the handler does not
    run and the call raises the acquisition's error, unless a release
    raises in turn. *)
Theorem failed_acquisition_releases_the_rest {T} w profile cookies_path chrome_bin
    (debug_dir : option Path) (trace : bool) (handler : handler_type T) exe e :
  get_chrome_executable w chrome_bin = Ok exe ->
  pw_start w = None ->
  let run := _run_with_page_sync w profile cookies_path chrome_bin debug_dir trace handler in
  (browser_launch w = Some e ->
   run = ([Did PwStart; Failed (Launch exe) e; released PwStop (pw_stop w)],
          Raise (match pw_stop w with Some e' => e' | None => e end))) /\
  (browser_launch w = None -> context_new w = Some e ->
   run = ([Did PwStart; Did (Launch exe);
           Failed (NewContext (get_cookies_path w cookies_path profile)) e;
           released BrowserClose (browser_close w); released PwStop (pw_stop w)],
          Raise (match pw_stop w, browser_close w with
                 | Some e', _ => e'
                 | None, Some e' => e'
                 | None, None => e
                 end))).
Proof.
  intros Hexe Hpw run. unfold run, _run_with_page_sync, pw, launch, new_context.
  rewrite Hexe, Hpw. split.
  - intros ->. destruct (pw_stop w); reflexivity.
  - intros -> ->. destruct (pw_stop w), (browser_close w); reflexivity.
Qed.

Lemma failed_acquisition_releases_the_rest_witness :
  fst (_run_with_page_sync (no_browser_world idle_page) None None None None false
                           failing_handler)
  = [Did PwStart;
     Failed (Launch None) (Exn "Error" "BrowserType.launch: Executable doesn't exist");
     Did PwStop] /\
  fst (_run_with_page_sync (no_context_world idle_page) None None None None false
                           failing_handler)
  = [Did PwStart; Did (Launch None);
     Failed (NewContext "profiles/default.json")
            (Exn "Error" "Browser.new_context: storage state is not valid JSON");
     Did BrowserClose; Did PwStop].
Proof.
  split.
  - rewrite (proj1 (failed_acquisition_releases_the_rest (no_browser_world idle_page)
                      None None None None false failing_handler None
                      (Exn "Error" "BrowserType.launch: Executable doesn't exist")
                      eq_refl eq_refl) eq_refl).
    reflexivity.
  - rewrite (proj2 (failed_acquisition_releases_the_rest (no_context_world idle_page)
                      None None None None false failing_handler None
                      (Exn "Error" "Browser.new_context: storage state is not valid JSON")
                      eq_refl eq_refl) eq_refl eq_refl).
    reflexivity.
Defined.

(** *** The tools *)

Lemma handler_events_reached {T} w profile cookies_path chrome_bin (debug_dir : option Path)
    (trace : bool) (handler : handler_type T) p :
  handler_reached w chrome_bin debug_dir trace = true ->
  new_page w = Ok p ->
  handler_events
    (fst (_run_with_page_sync w profile cookies_path chrome_bin debug_dir trace handler))
  = fst (handler {| page := p |} (get_cookies_path w cookies_path profile)).
Proof.
  intros Hr Hp. destruct (reached_has_page _ _ _ _ Hr) as (p' & exe & _ & Hexe).
  rewrite (run_reached w profile cookies_path chrome_bin debug_dir trace
             handler p exe Hr Hp Hexe).
  cbn [fst app handler_events].
  rewrite !handler_events_app, handler_events_prelude, handler_events_map,
    (handler_events_outside _ (teardown_outside_handler _ _ _ _)).
  rewrite !handler_events_released_cons by discriminate.
  simpl. rewrite !app_nil_r. reflexivity.
Qed.

Lemma teardown_ok_exits w :
  teardown_ok w = true ->
  context_close w = None /\ browser_close w = None /\ pw_stop w = None.
Proof.
  unfold teardown_ok.
  destruct (context_close w), (browser_close w), (pw_stop w);
    destruct (mkdir w), (write_dom w), (write_screenshot_error w), (write_console w),
             (tracing_stop w);
    rewrite ?andb_false_r; try discriminate; auto.
Qed.

Lemma outcome_reached {T} w profile cookies_path chrome_bin (debug_dir : option Path)
    (trace : bool) (handler : handler_type T) p :
  handler_reached w chrome_bin debug_dir trace = true ->
  new_page w = Ok p ->
  teardown_ok w = true ->
  snd (_run_with_page_sync w profile cookies_path chrome_bin debug_dir trace handler)
  = snd (handler {| page := p |} (get_cookies_path w cookies_path profile)).
Proof.
  intros Hr Hp Ht. destruct (reached_has_page _ _ _ _ Hr) as (p' & exe & _ & Hexe).
  rewrite (run_reached w profile cookies_path chrome_bin debug_dir trace
             handler p exe Hr Hp Hexe).
  destruct (teardown_ok_exits w Ht) as (-> & -> & ->).
  cbn [snd]. rewrite (teardown_returns _ _ _ _ Ht). reflexivity.
Qed.

(** X22: with at least one image path, when the handler is reached the
    publish action is run once, on a payload that has the title and the
    content as given, every image path with its home directory expanded,
    and the normalized tags; when the teardown returns, the tool answers
    [submitted] exactly when the action returned, and fails with the
    action's error otherwise. *)
Theorem publish_image_submits_normalized_payload w DEFAULTS publish title content
    path paths tags profile cookies_path chrome_bin debug_dir trace p :
  let chrome_eff := _effective_str chrome_bin (d_chrome_bin DEFAULTS) in
  let debug_eff := match debug_dir with
                   | Some d => Some (resolve_path w d)
                   | None => d_debug_dir DEFAULTS
                   end in
  let trace_eff := _resolve_bool trace (d_trace DEFAULTS) in
  handler_reached w chrome_eff debug_eff trace_eff = true ->
  new_page w = Ok p ->
  let payload := {| mcp_server.title := title; mcp_server.content := content;
                    image_paths := map (expanduser w) (path :: paths);
                    mcp_server.tags := _normalize_tags tags |} in
  let run := publish_image w DEFAULTS publish title content (path :: paths) tags
               profile cookies_path chrome_bin debug_dir trace in
  handler_events (fst run) = fst (publish {| page := p |} payload) /\
  (teardown_ok w = true ->
   snd run = match snd (publish {| page := p |} payload) with
             | Ok _ => Ok (JObj [("status", JStr "submitted")])
             | Raise e => Raise e
             end).
Proof.
  intros chrome_eff debug_eff trace_eff Hr Hp payload run.
  unfold run, publish_image, _resolve_invocation_args, _run_with_page.
  fold chrome_eff debug_eff trace_eff. split.
  - rewrite (handler_events_reached w _ _ chrome_eff debug_eff trace_eff _ p Hr Hp).
    fold payload. destruct (publish {| page := p |} payload) as [hs [u|e]]; reflexivity.
  - intros Ht.
    rewrite (outcome_reached w _ _ chrome_eff debug_eff trace_eff _ p Hr Hp Ht).
    fold payload. destruct (publish {| page := p |} payload) as [hs [u|e]]; reflexivity.
Qed.

Lemma publish_image_submits_normalized_payload_witness :
  handler_events
    (fst (publish_image (quiet_world idle_page) no_defaults
            (fun _ payload => (map Act (mcp_server.tags payload), Ok tt))
            "title" "content" ["a.png"] (Some ["#travel"; ""; "food"])
            None None None None None))
  = [Act "travel"; Act "food"].
Proof.
  apply (proj1 (publish_image_submits_normalized_payload (quiet_world idle_page) no_defaults
                  (fun _ payload => (map Act (mcp_server.tags payload), Ok tt))
                  "title" "content" "a.png" [] (Some ["#travel"; ""; "food"])
                  None None None None None idle_page eq_refl eq_refl)).
Defined.

(** X23: when the handler is reached, the teardown returns and the feed
    action returns feeds whose raw objects are well shaped, [feeds_list]
    and [search_feeds] return those raw objects, in order, each note
    without the token nested under its user. *)
Theorem feed_tools_return_stripped_feeds w DEFAULTS get_feeds search keyword
    profile cookies_path chrome_bin debug_dir trace p hs feeds :
  let chrome_eff := _effective_str chrome_bin (d_chrome_bin DEFAULTS) in
  let debug_eff := match debug_dir with
                   | Some d => Some (resolve_path w d)
                   | None => d_debug_dir DEFAULTS
                   end in
  let trace_eff := _resolve_bool trace (d_trace DEFAULTS) in
  handler_reached w chrome_eff debug_eff trace_eff = true ->
  new_page w = Ok p ->
  teardown_ok w = true ->
  forallb clean_array.well_shaped (map raw feeds) = true ->
  (get_feeds {| page := p |} = (hs, Ok feeds) ->
   snd (feeds_list w DEFAULTS get_feeds profile cookies_path chrome_bin debug_dir trace)
   = Ok (JArr (map clean_array.strip (map raw feeds)))) /\
  (search {| page := p |} keyword = (hs, Ok feeds) ->
   snd (search_feeds w DEFAULTS search keyword profile cookies_path chrome_bin debug_dir trace)
   = Ok (JArr (map clean_array.strip (map raw feeds)))).
Proof.
  intros chrome_eff debug_eff trace_eff Hr Hp Ht Hw.
  split; intros Ha;
    unfold feeds_list, search_feeds, _resolve_invocation_args, _run_with_page;
    fold chrome_eff debug_eff trace_eff;
    rewrite (outcome_reached w _ _ chrome_eff debug_eff trace_eff _ p Hr Hp Ht);
    rewrite Ha; unfold sanitize_feeds; cbn [snd];
    apply clean_array_facts.clean_xsec_tokens_returns, Hw.
Qed.

Lemma feed_tools_return_stripped_feeds_witness :
  snd (feeds_list (quiet_world idle_page) no_defaults example_feeds None None None None None)
  = Ok (JArr clean_array.example_cleaned).
Proof.
  apply (proj1 (feed_tools_return_stripped_feeds (quiet_world idle_page) no_defaults
                  example_feeds (fun ctx _ => example_feeds ctx) "tea"
                  None None None None None idle_page [Act "get_feeds"]
                  (map (fun r => {| raw := r |}) clean_array.example_array)
                  eq_refl eq_refl eq_refl eq_refl)).
  reflexivity.
Defined.

End tools_facts.
